(** * hub: the [pull-request] command (pull_request.go)

    A shallow embedding of the message pipeline of [pull_request.go]:
    the branch-reference resolver [getLocalBranch], the draft composer
    [writePullRequestChanges], the editor command [buildEditCommand], the
    title/body parser [readln] / [readTitleAndBody] and the driver
    [pullRequest].

    Go strings are byte sequences; they are modelled by [string], whose
    characters are the 256 values of [ascii].  The few functions of Go's
    standard library that the program calls ([strings], [regexp], [fmt],
    [bufio]) are modelled in modules bearing the package's name, from the
    documented behaviour of the package. *)

From Stdlib Require Import Bool Arith Lia List ZArith.
From Stdlib Require Import Strings.Ascii Strings.String.
From Equations.Prop Require Import Equations Logic.
Import ListNotations.

Local Open Scope list_scope.
Local Open Scope string_scope.

(* ================================================================== *)
(** * Part I: definitions                                              *)
(* ================================================================== *)

(** ** Bytes and strings *)

(** Reversal of a string; used to scan a string from its end. *)
Fixpoint rev (s : string) : string :=
  match s with
  | EmptyString => EmptyString
  | String c s' => rev s' ++ String c EmptyString
  end.

(** [contains c s]: the byte [c] occurs in [s]. *)
Fixpoint contains (c : ascii) (s : string) : bool :=
  match s with
  | EmptyString => false
  | String d s' => Ascii.eqb d c || contains c s'
  end.

(** Go's slice indexing [l[i]]: [None] is the panic of an index out of
    range. *)
Definition index {A : Type} (l : list A) (i : Z) : option A :=
  if (i <? 0)%Z then None else nth_error l (Z.to_nat i).

(** Go's [len] on a slice, a Go [int]. *)
Definition len {A : Type} (l : list A) : Z := Z.of_nat (List.length l).

(** The value of a byte. *)
Definition byte (c : ascii) : N := N_of_ascii c.

(** Go's [error] values: [None] is [nil]. *)
Definition error : Type := option string.

(** ** Package [strings] *)

Module strings.

(** White space as Unicode defines it ([unicode.IsSpace]), by the UTF-8
    encoding of each code point.  One byte: U+0009..U+000D and U+0020. *)
Definition space1 (a : ascii) : bool :=
  ((9 <=? byte a) && (byte a <=? 13) || (byte a =? 32))%N.

(** Two bytes: U+0085 (C2 85) and U+00A0 (C2 A0). *)
Definition space2 (a b : ascii) : bool :=
  ((byte a =? 194) && ((byte b =? 133) || (byte b =? 160)))%N.

(** Three bytes: U+1680 (E1 9A 80), U+2000..U+200A (E2 80 80..8A),
    U+2028, U+2029, U+202F (E2 80 A8, A9, AF), U+205F (E2 81 9F) and
    U+3000 (E3 80 80). *)
Definition space3 (a b c : ascii) : bool :=
  ((byte a =? 225) && (byte b =? 154) && (byte c =? 128)
   || (byte a =? 226) && (byte b =? 128)
      && ((128 <=? byte c) && (byte c <=? 138)
          || (byte c =? 168) || (byte c =? 169) || (byte c =? 175))
   || (byte a =? 226) && (byte b =? 129) && (byte c =? 159)
   || (byte a =? 227) && (byte b =? 128) && (byte c =? 128))%N.

(** [s] starts with a white-space code point, for encodings recognised by
    [sp2] and [sp3]. *)
Definition startsSpace (sp2 : ascii -> ascii -> bool)
    (sp3 : ascii -> ascii -> ascii -> bool) (s : string) : bool :=
  match s with
  | String a s1 =>
      space1 a
      || match s1 with
         | String b s2 =>
             sp2 a b
             || match s2 with
                | String c _ => sp3 a b c
                | EmptyString => false
                end
         | EmptyString => false
         end
  | EmptyString => false
  end.

(** Removal of the white-space code points a string starts with.  A byte
    sequence that is not the encoding of a white-space code point (among
    them every invalid encoding, which decodes to U+FFFD) stops it. *)
Fixpoint trim (sp2 : ascii -> ascii -> bool)
    (sp3 : ascii -> ascii -> ascii -> bool) (s : string) : string :=
  match s with
  | String a s1 =>
      if space1 a then trim sp2 sp3 s1
      else match s1 with
           | String b s2 =>
               if sp2 a b then trim sp2 sp3 s2
               else match s2 with
                    | String c s3 =>
                        if sp3 a b c then trim sp2 sp3 s3 else s
                    | EmptyString => s
                    end
           | EmptyString => s
           end
  | EmptyString => s
  end.

(** The encodings read from the end of the string. *)
Definition space2r (b a : ascii) : bool := space2 a b.
Definition space3r (c b a : ascii) : bool := space3 a b c.

Definition TrimLeft (s : string) : string := trim space2 space3 s.
Definition TrimRight (s : string) : string :=
  rev (trim space2r space3r (rev s)).

(** [strings.TrimSpace(s)]: [s] without its leading and trailing white
    space; the leading one is removed first. *)
Definition TrimSpace (s : string) : string := TrimRight (TrimLeft s).

(** [strings.Split(s, sep)] for a separator of one byte, the only kind the
    program uses: [s] is cut at every occurrence of [sep]; the result has
    one more element than [s] has separators, so it is never empty. *)
Fixpoint Split (s : string) (sep : ascii) : list string :=
  match s with
  | EmptyString => [EmptyString]
  | String c s' =>
      if Ascii.eqb c sep then EmptyString :: Split s' sep
      else match Split s' sep with
           | h :: t => String c h :: t
           | [] => [String c EmptyString]
           end
  end.

(** [strings.Join(a, sep)]. *)
Fixpoint Join (a : list string) (sep : string) : string :=
  match a with
  | [] => EmptyString
  | [x] => x
  | x :: rest => x ++ sep ++ Join rest sep
  end.

(** [strings.HasPrefix(s, prefix)]. *)
Fixpoint HasPrefix (s prefix : string) {struct prefix} : bool :=
  match prefix with
  | EmptyString => true
  | String p prefix' =>
      match s with
      | EmptyString => false
      | String c s' => Ascii.eqb c p && HasPrefix s' prefix'
      end
  end.

(** [strings.HasSuffix(s, suffix)]. *)
Definition HasSuffix (s suffix : string) : bool :=
  HasPrefix (rev s) (rev suffix).

End strings.

(** ** Package [regexp]

    The four regular expressions of the program, each by the one method the
    program calls on it.  Replacement texts are taken literally: those of
    the program hold no [$]. *)

Module regexp.

(** [MustCompile("\\S").MatchString(s)]: some code point of [s] is not one
    of tab, line feed, form feed, carriage return and space.  These five
    are single bytes, and every other byte starts (or is, when invalid) a
    code point outside the class. *)
Definition nonSpace (c : ascii) : bool :=
  negb ((byte c =? 9) || (byte c =? 10) || (byte c =? 12)
        || (byte c =? 13) || (byte c =? 32))%N.

Fixpoint MatchString_S (s : string) : bool :=
  match s with
  | EmptyString => false
  | String c s' => nonSpace c || MatchString_S s'
  end.

(** [MustCompile("^[mg]?vim$").MatchString(s)]: without the multi-line
    flag [^] and [$] are the two ends of the text. *)
Definition MatchString_vim (s : string) : bool :=
  String.eqb s "vim" || String.eqb s "mvim" || String.eqb s "gvim".

(** [MustCompilePOSIX("^").ReplaceAllString(src, repl)]: in POSIX syntax
    [^] matches at the start of every line, that is at the start of the
    text and after every line feed; each of these empty matches is
    replaced. *)
Fixpoint afterLineFeeds (repl src : string) : string :=
  match src with
  | EmptyString => EmptyString
  | String c src' =>
      String c (if Ascii.eqb c "010" then repl ++ afterLineFeeds repl src'
                else afterLineFeeds repl src')
  end.

Definition ReplaceAllString_bol (src repl : string) : string :=
  repl ++ afterLineFeeds repl src.

(** The text continues with spaces only up to the end of its line. *)
Fixpoint spacesToEol (s : string) : bool :=
  match s with
  | EmptyString => true
  | String c s' =>
      Ascii.eqb c "010" || (Ascii.eqb c " " && spacesToEol s')
  end.

(** [MustCompilePOSIX(" +$").ReplaceAllString(src, repl)]: in POSIX syntax
    [$] matches at the end of every line, and the match is the leftmost
    longest one: every maximal run of spaces that ends a line is replaced
    once.  [inMatch] tells that the preceding byte belongs to a match. *)
Fixpoint replaceTrailing (repl : string) (inMatch : bool) (src : string)
  : string :=
  match src with
  | EmptyString => EmptyString
  | String c src' =>
      if Ascii.eqb c " " && spacesToEol src'
      then (if inMatch then replaceTrailing repl true src'
            else repl ++ replaceTrailing repl true src')
      else String c (replaceTrailing repl false src')
  end.

Definition ReplaceAllString_eol (src repl : string) : string :=
  replaceTrailing repl false src.

End regexp.

(** ** Package [fmt] *)

Module fmt.

(** The operands left over when the format is exhausted. *)
Definition extra (a : list string) : string :=
  match a with
  | [] => EmptyString
  | _ => "%!(EXTRA "
         ++ strings.Join (map (fun x => "string=" ++ x) a) ", " ++ ")"
  end.

(** [fmt.Sprintf(format, a...)] for string operands and the verbs [%s] and
    [%%]; flags and widths are not part of the model.  Any other verb is
    rendered the way Go renders a verb that does not fit its operand. *)
Fixpoint Sprintf (format : string) (a : list string) : string :=
  match format with
  | EmptyString => extra a
  | String c rest =>
      if negb (Ascii.eqb c "%") then String c (Sprintf rest a)
      else match rest with
           | EmptyString => "%!(NOVERB)" ++ extra a
           | String v rest' =>
               if Ascii.eqb v "%" then String "%" (Sprintf rest' a)
               else match a with
                    | [] => "%!" ++ String v "(MISSING)" ++ Sprintf rest' []
                    | x :: a' =>
                        (if Ascii.eqb v "s" then x
                         else "%!" ++ String v "(string=" ++ x ++ ")")
                        ++ Sprintf rest' a'
                    end
           end
  end.

End fmt.

(** ** Packages [io] and [bufio] *)

Module io.
Definition EOF : error := Some "EOF".
End io.

Module bufio.

(** A [*bufio.Reader] is modelled by what it still has to deliver: the
    successive results [(line, isPrefix)] of [ReadLine], after which every
    call fails with [io.EOF]. *)
Definition Reader : Type := list (string * bool).

(** [b.ReadLine()], with the reader it leaves. *)
Definition ReadLine (b : Reader) : string * bool * error * Reader :=
  match b with
  | [] => (EmptyString, false, io.EOF, [])
  | (line, isPrefix) :: b' => (line, isPrefix, None, b')
  end.

(** The end-of-line bytes [ReadLine] leaves out: the line feed and the
    carriage return before it, if any.  [line] is the line without its
    line feed. *)
Definition dropCR (line : string) : string :=
  match rev line with
  | String c r => if Ascii.eqb c "013" then rev r else line
  | EmptyString => line
  end.

(** The results of [ReadLine] on a reader whose buffer holds [size]
    bytes, for the unread bytes [text]; [buf] is the part of the current
    line that has been scanned.  A line feed ends a line.  A buffer that
    fills up before a line feed is returned as a fragment with
    [isPrefix = true]; if it ends in a carriage return, that byte is put
    back and starts the next fragment.  At the end of the input the bytes
    scanned, if any, are the last line. *)
Fixpoint fragments (size : nat) (buf text : string) : Reader :=
  match text with
  | EmptyString =>
      match buf with
      | EmptyString => []
      | _ => [(buf, false)]
      end
  | String c text' =>
      if Ascii.eqb c "010" then (dropCR buf, false) :: fragments size "" text'
      else
        let buf' := buf ++ String c "" in
        if (String.length buf' <? size)%nat then fragments size buf' text'
        else if Ascii.eqb c "013"
             then (buf, true) :: fragments size (String c "") text'
             else (buf', true) :: fragments size "" text'
  end.

Definition defaultBufSize : nat := 4096.

(** [bufio.NewReader(f)] for a file that holds [text]. *)
Definition NewReader (text : string) : Reader :=
  fragments defaultBufSize "" text.

End bufio.

(** ** The process and its collaborators *)

(** [PullRequestParams], the request handed to the GitHub client. *)
Record PullRequestParams : Type := {
  Title : string;
  Body : string;
  Base : string;
  Head : string
}.

(** What the process acts on: the files by path, the requests that
    [gh.CreatePullRequest] has received, and the lines logged. *)
Record World : Type := {
  files : string -> option string;
  created : list (string * string * PullRequestParams);
  logged : list string
}.

(** The [git] collaborator. *)
Record Git : Type := {
  Dir : string;
  Owner : string;
  Repo : string;
  Editor : string;
  CommitLogs : string -> string -> string
}.

(** The surroundings of the command: [git], the two flags, and how the
    operating system and GitHub answer. [runs] is what a child process
    does: its failure, if any, and the files it leaves. *)
Record System : Type := {
  git : Git;
  flagPullRequestBase : string;
  flagPullRequestHead : string;
  joinPath : string -> string -> string;
  writeFails : string -> World -> error;
  runs : list string -> World -> error * (string -> option string);
  createFails : string -> string -> PullRequestParams -> World -> error
}.

(** How a computation of the process ends. *)
Inductive result (A : Type) : Type :=
| Returned (a : A)
| Exited (status : Z)
| Panicked.

Arguments Returned {A} a.
Arguments Exited {A} status.
Arguments Panicked {A}.

(** Computations of the process: a state monad over [World] in which
    [os.Exit] and panics cut the rest of the computation. *)
Definition M (A : Type) : Type := World -> result A * World.

Definition ret {A : Type} (a : A) : M A := fun w => (Returned a, w).

Definition bind {A B : Type} (m : M A) (k : A -> M B) : M B :=
  fun w =>
    match m w with
    | (Returned a, w') => k a w'
    | (Exited status, w') => (Exited status, w')
    | (Panicked, w') => (Panicked, w')
    end.

Notation "x <- m ;; k" := (bind m (fun x => k))
  (at level 61, m at next level, right associativity).
Notation "m ;; k" := (bind m (fun _ => k))
  (at level 61, right associativity).

(** A value whose computation may panic. *)
Definition orPanic {A : Type} (r : option A) : M A :=
  fun w =>
    match r with
    | Some a => (Returned a, w)
    | None => (Panicked, w)
    end.

Definition update (f : string -> option string) (path data : string)
  : string -> option string :=
  fun p => if String.eqb p path then Some data else f p.

Module log.
(** [log.Fatal(v)]: the message is logged and the process exits with
    status 1. *)
Definition Fatal {A : Type} (v : string) : M A :=
  fun w =>
    (Exited 1,
     {| files := files w; created := created w;
        logged := (logged w ++ [v])%list |}).
End log.

Module ioutil.
(** [ioutil.WriteFile(filename, data, perm)]: the file is created or
    overwritten, unless the system refuses. *)
Definition WriteFile (sys : System) (filename data : string) : M error :=
  fun w =>
    match writeFails sys filename w with
    | Some e => (Returned (Some e), w)
    | None =>
        (Returned None,
         {| files := update (files w) filename data;
            created := created w; logged := logged w |})
    end.
End ioutil.

Module os.
(** An [*os.File] opened for reading, by the bytes it holds; [None] is the
    nil file. *)
Definition File : Type := option string.

(** [os.Open(name)]: the files of the model are all readable, so that
    opening fails for a missing file only, with the error of Go's
    [*PathError]. *)
Definition Open (name : string) : M (File * error) :=
  fun w =>
    match files w name with
    | Some data => (Returned (Some data, None), w)
    | None =>
        (Returned (None, Some ("open " ++ name
                               ++ ": no such file or directory")), w)
    end.

(** [f.Close()]: on the nil file it does nothing and returns
    [os.ErrInvalid]. *)
Definition Close (f : File) : M error :=
  ret (match f with
       | Some _ => None
       | None => Some "invalid argument"
       end).

(** The bytes a reader gets from [f]; a read from the nil file fails at
    once, as does a read at the end of the input. *)
Definition contents (f : File) : string :=
  match f with
  | Some data => data
  | None => EmptyString
  end.
End os.

Module exec.
(** [exec.Command(name, arg...).Run()] with the standard streams of the
    process: the child does what it does to the files. *)
Definition Run (sys : System) (name : string) (arg : list string)
  : M error :=
  fun w =>
    let '(err, fs) := runs sys (name :: arg) w in
    (Returned err,
     {| files := fs; created := created w; logged := logged w |}).
End exec.

Module gh.
(** [gh.CreatePullRequest(owner, repo, params)]: the request reaches the
    client, which answers. *)
Definition CreatePullRequest (sys : System) (owner repo : string)
    (params : PullRequestParams) : M error :=
  fun w =>
    (Returned (createFails sys owner repo params w),
     {| files := files w;
        created := (created w ++ [(owner, repo, params)])%list;
        logged := logged w |}).
End gh.

(** ** pull_request.go *)

(** [getLocalBranch]: the last segment of the branch name cut at [":"].
    [None] is the index-out-of-range panic of [result[len(result)-1]]. *)
Definition getLocalBranch (branchName : string) : option string :=
  let result := strings.Split branchName ":" in
  index result (len result - 1).

(** [readln]: the fragments of one line are put together.  The loop runs
    while [isPrefix && err == nil]; at the end of the input [ReadLine]
    gives no bytes and [io.EOF], which is returned with the bytes
    gathered so far.  The match is [bufio.ReadLine] written out (lemma
    [readln_from_ReadLine]); the reader that is left is returned too. *)
Fixpoint readln_from (ln : string) (r : bufio.Reader)
  : string * error * bufio.Reader :=
  match r with
  | [] => (ln, io.EOF, [])
  | (line, isPrefix) :: r' =>
      let ln := ln ++ line in
      if isPrefix then readln_from ln r' else (ln, None, r')
  end.

Definition readln (r : bufio.Reader) : string * error * bufio.Reader :=
  readln_from EmptyString r.

(** The loop of [readTitleAndBody]: lines are read until [readln] fails or
    a line starts with [#]; a line goes to the title as long as the body is
    empty and the line has a character that is not white space, and to the
    body otherwise. *)
Equations? readTitleAndBody_loop (reader : bufio.Reader)
    (titleParts bodyParts : list string) : list string * list string
    by wf (List.length reader) lt :=
  readTitleAndBody_loop reader titleParts bodyParts
    with inspect (readln reader) := {
    | exist _ (line, Some _, _) _ => (titleParts, bodyParts)
    | exist _ (line, None, reader') e =>
        if strings.HasPrefix line "#" then (titleParts, bodyParts)
        else if (len bodyParts =? 0)%Z && regexp.MatchString_S line
        then readTitleAndBody_loop reader' (titleParts ++ [line])%list
               bodyParts
        else readTitleAndBody_loop reader' titleParts
               (bodyParts ++ [line])%list }.
Proof.
  all: clear readTitleAndBody_loop titleParts bodyParts.
  all: unfold readln in e; revert e; generalize EmptyString.
  all: induction reader as [|[l p] r IH]; intros acc e; simpl in e.
  all: try discriminate.
  all: destruct p; [ apply IH in e; simpl; lia | ].
  all: injection e as _ Hr; subst; simpl; lia.
Qed.

(** [readTitleAndBody]. *)
Definition readTitleAndBody (reader : bufio.Reader)
  : string * string * error :=
  let '(titleParts, bodyParts) := readTitleAndBody_loop reader [] [] in
  let title := strings.Join titleParts " " in
  let title := strings.TrimSpace title in
  let body := strings.Join bodyParts (String "010" "") in
  let body := strings.TrimSpace body in
  (title, body, None).

Section Command.

Variable sys : System.

(** [writePullRequestChanges]. *)
Definition writePullRequestChanges (messageFile base head : string)
  : M error :=
  let message := "
# Requesting a pull to %s from %s
#
# Write a message for this pull reuqest. The first block
# of the text is the title and the rest is description.
#
# Changes:
#
%s
" in
  let startRegexp := regexp.ReplaceAllString_bol in
  let endRegexp := regexp.ReplaceAllString_eol in
  localBase <- orPanic (getLocalBranch base) ;;
  localHead <- orPanic (getLocalBranch head) ;;
  let commitLogs := CommitLogs (git sys) localBase localHead in
  let commitLogs := strings.TrimSpace commitLogs in
  let commitLogs := startRegexp commitLogs "# " in
  let commitLogs := endRegexp commitLogs "" in
  let message := fmt.Sprintf message [base; head; commitLogs] in
  ioutil.WriteFile sys messageFile message.

(** [buildEditCommand]. *)
Definition buildEditCommand (messageFile : string) : list string :=
  let editCmd := [] in
  let gitEditor := Editor (git sys) in
  let editCmd := (editCmd ++ [gitEditor])%list in
  let editCmd :=
    if regexp.MatchString_vim gitEditor
    then ((editCmd ++ ["-c"]) ++ ["set ft=gitcommit"])%list
    else editCmd in
  let editCmd := (editCmd ++ [messageFile])%list in
  editCmd.

(** [execCmd]: [command[0]] panics on an empty command. *)
Definition execCmd (command : list string) : M error :=
  match command with
  | [] => orPanic None
  | name :: arg => exec.Run sys name arg
  end.

(** [readTitleAndBodyFromFile]; the deferred [f.Close()] runs when the
    function returns, and what it returns is dropped. *)
Definition readTitleAndBodyFromFile (messageFile : string)
  : M (string * string * error) :=
  r <- os.Open messageFile ;;
  let '(f, err) := r in
  result <- match err with
            | Some err => ret (EmptyString, EmptyString, Some err)
            | None =>
                let reader := bufio.NewReader (os.contents f) in
                ret (readTitleAndBody reader)
            end ;;
  os.Close f ;;
  ret result.

(** [if err != nil { log.Fatal(err) }]. *)
Definition fatalIf (err : error) : M unit :=
  match err with
  | Some e => log.Fatal e
  | None => ret tt
  end.

(** [pullRequest]. *)
Definition pullRequest : M unit :=
  let messageFile := joinPath sys (Dir (git sys)) "PULLREQ_EDITMSG" in
  err <- writePullRequestChanges messageFile (flagPullRequestBase sys)
           (flagPullRequestHead sys) ;;
  fatalIf err ;;
  let editCmd := buildEditCommand messageFile in
  err <- execCmd editCmd ;;
  fatalIf err ;;
  r <- readTitleAndBodyFromFile messageFile ;;
  let '(title, body, err) := r in
  fatalIf err ;;
  (if (Z.of_nat (String.length title) =? 0)%Z
   then log.Fatal "Aborting due to empty pull request title"
   else ret tt) ;;
  let params :=
    {| Title := title; Body := body;
       Base := flagPullRequestBase sys; Head := flagPullRequestHead sys |} in
  err <- gh.CreatePullRequest sys (Owner (git sys)) (Repo (git sys))
           params ;;
  fatalIf err.

End Command.

(** ** Derived notions *)

Definition nl : string := String "010" "".

(** The log section of the draft: the commit logs as
    [writePullRequestChanges] rewrites them before they are put into the
    message. *)
Definition logSection (commitLogs : string) : string :=
  regexp.ReplaceAllString_eol
    (regexp.ReplaceAllString_bol (strings.TrimSpace commitLogs) "# ") "".

(** The message with its three operands in place. *)
Definition draft (base head logs : string) : string :=
  nl ++ "# Requesting a pull to " ++ base ++ " from " ++ head ++ nl
  ++ "#" ++ nl
  ++ "# Write a message for this pull reuqest. The first block" ++ nl
  ++ "# of the text is the title and the rest is description." ++ nl
  ++ "#" ++ nl
  ++ "# Changes:" ++ nl
  ++ "#" ++ nl
  ++ logs ++ nl.

(** The lines that [readln] reads from a reader, one after the other,
    until it fails; [ln] is the part gathered of the current line. *)
Fixpoint lines_from (ln : string) (r : bufio.Reader) : list string :=
  match r with
  | [] => []
  | (line, isPrefix) :: r' =>
      if isPrefix then lines_from (ln ++ line) r'
      else (ln ++ line) :: lines_from EmptyString r'
  end.

Definition lines (r : bufio.Reader) : list string := lines_from EmptyString r.

(** The lines strictly before the first one that starts with [#]. *)
Fixpoint beforeComment (ls : list string) : list string :=
  match ls with
  | [] => []
  | line :: ls' =>
      if strings.HasPrefix line "#" then [] else line :: beforeComment ls'
  end.

(** The loop of [readTitleAndBody] run on lines already read. *)
Fixpoint partsOfLines (ls titleParts bodyParts : list string)
  : list string * list string :=
  match ls with
  | [] => (titleParts, bodyParts)
  | line :: ls' =>
      if strings.HasPrefix line "#" then (titleParts, bodyParts)
      else if (len bodyParts =? 0)%Z && regexp.MatchString_S line
      then partsOfLines ls' (titleParts ++ [line])%list bodyParts
      else partsOfLines ls' titleParts (bodyParts ++ [line])%list
  end.

(** The lines of a text as [ReadLine] cuts them when each fits the buffer:
    a line ends at a line feed, the carriage return before it is left out,
    and bytes after the last line feed are a last line.  [buf] is the part
    scanned of the current line. *)
Fixpoint wholeLines (buf text : string) : list string :=
  match text with
  | EmptyString =>
      match buf with
      | EmptyString => []
      | _ => [buf]
      end
  | String c text' =>
      if Ascii.eqb c "010" then bufio.dropCR buf :: wholeLines "" text'
      else wholeLines (buf ++ String c "") text'
  end.

Definition cr : string := String "013" "".

(** No carriage return of the text is followed by a line feed. *)
Fixpoint noCRLF (s : string) : bool :=
  match s with
  | EmptyString => true
  | String c s' =>
      negb (Ascii.eqb c "013" && strings.HasPrefix s' nl) && noCRLF s'
  end.

(** [n] times the byte [c]. *)
Fixpoint replicate (n : nat) (c : ascii) : string :=
  match n with
  | O => EmptyString
  | S n' => String c (replicate n' c)
  end.

(** The line is empty or made of spaces. *)
Fixpoint onlySpaces (s : string) : bool :=
  match s with
  | EmptyString => true
  | String c s' => Ascii.eqb c " " && onlySpaces s'
  end.

(** The reader ends in the middle of a line: the last result of
    [ReadLine] before the end of the input has [isPrefix] set, which
    happens when the input stops just as the buffer is full.  [pending]
    tells whether the result before [r] had [isPrefix] set. *)
Fixpoint endsUnfinished (pending : bool) (r : bufio.Reader) : bool :=
  match r with
  | [] => pending
  | (_, isPrefix) :: r' => endsUnfinished isPrefix r'
  end.

(** ** Concrete surroundings, for examples *)

(** A repository whose editor is [editor] and whose commit log between any
    two branches is [logs]. *)
Definition exampleGit (editor logs : string) : Git :=
  {| Dir := ".git"; Owner := "owner"; Repo := "hub"; Editor := editor;
     CommitLogs := fun _ _ => logs |}.

(** A system in which nothing fails.  The editor stores [edited] in the
    file named by its last argument, or leaves the files as they are. *)
Definition exampleSystem (editor logs : string) (edited : option string)
  : System :=
  {| git := exampleGit editor logs;
     flagPullRequestBase := "owner:master";
     flagPullRequestHead := "owner:topic";
     joinPath := fun dir name => dir ++ "/" ++ name;
     writeFails := fun _ _ => None;
     runs := fun argv w =>
       (None,
        match edited with
        | Some text => update (files w) (List.last argv "") text
        | None => files w
        end);
     createFails := fun _ _ _ _ => None |}.

Definition emptyWorld : World :=
  {| files := fun _ => None; created := []; logged := [] |}.

(** ** Notions for the further properties *)

(** The first lines of a sequence that have a character that is not white
    space, and the lines from the first that has none. *)
Fixpoint titleBlock (ls : list string) : list string :=
  match ls with
  | [] => []
  | line :: ls' =>
      if regexp.MatchString_S line then line :: titleBlock ls' else []
  end.

Fixpoint afterTitleBlock (ls : list string) : list string :=
  match ls with
  | [] => []
  | line :: ls' =>
      if regexp.MatchString_S line then afterTitleBlock ls' else ls
  end.

(** A system in which the write of the draft, the editor and GitHub fail
    as told.  The editor stores [edited] in the file named by its last
    argument, or removes every file. *)
Definition faultySystem (writeErr editErr : error) (edited : option string)
    (createErr : error) : System :=
  {| git := exampleGit "vim" "Fix bug";
     flagPullRequestBase := "owner:master";
     flagPullRequestHead := "owner:topic";
     joinPath := fun dir name => dir ++ "/" ++ name;
     writeFails := fun _ _ => writeErr;
     runs := fun argv w =>
       (editErr,
        match edited with
        | Some text => update (files w) (List.last argv "") text
        | None => fun _ => None
        end);
     createFails := fun _ _ _ _ => createErr |}.

(* ================================================================== *)
(** * Part II: properties                                              *)
(* ================================================================== *)

(** ** Strings *)

Lemma append_nil_r (s : string) : s ++ "" = s.
Proof. induction s as [|c s IH]; simpl; [reflexivity | now rewrite IH]. Qed.

Lemma append_assoc (a b c : string) : (a ++ b) ++ c = a ++ (b ++ c).
Proof. induction a as [|x a IH]; simpl; [reflexivity | now rewrite IH]. Qed.

Lemma length_append (a b : string) :
  String.length (a ++ b) = String.length a + String.length b.
Proof. induction a as [|x a IH]; simpl; [reflexivity | now rewrite IH]. Qed.

Lemma rev_append (a b : string) : rev (a ++ b) = rev b ++ rev a.
Proof.
  induction a as [|x a IH]; simpl.
  - now rewrite append_nil_r.
  - now rewrite IH, append_assoc.
Qed.

Lemma rev_involutive (s : string) : rev (rev s) = s.
Proof.
  induction s as [|c s IH]; simpl; [reflexivity|].
  now rewrite rev_append, IH.
Qed.

Lemma contains_append (c : ascii) (a b : string) :
  contains c (a ++ b) = contains c a || contains c b.
Proof.
  induction a as [|x a IH]; simpl; [reflexivity|].
  now rewrite IH, orb_assoc.
Qed.

Lemma contains_rev (c : ascii) (s : string) : contains c (rev s) = contains c s.
Proof.
  induction s as [|x s IH]; simpl; [reflexivity|].
  rewrite contains_append, IH. simpl. rewrite orb_false_r. apply orb_comm.
Qed.

(** Whether a string ends in a given byte is decided by its last byte. *)
Lemma HasSuffix_char_cons (c x : ascii) (s : string) :
  strings.HasSuffix (String c s) (String x "")
  = match s with
    | EmptyString => Ascii.eqb c x
    | _ => strings.HasSuffix s (String x "")
    end.
Proof.
  unfold strings.HasSuffix.
  destruct s as [|y s].
  - simpl. apply andb_true_r.
  - change (rev (String c (String y s)))
      with (rev (String y s) ++ String c "").
    destruct (rev (String y s)) as [|z r] eqn:E.
    + apply (f_equal String.length) in E. simpl in E.
      rewrite length_append in E. simpl in E. lia.
    + simpl. reflexivity.
Qed.

(** ** [strings.Split] and [getLocalBranch] *)

Lemma Split_nonempty (s : string) (sep : ascii) : strings.Split s sep <> [].
Proof.
  destruct s as [|c s]; simpl; [discriminate|].
  destruct (Ascii.eqb c sep); [discriminate|].
  destruct (strings.Split s sep); discriminate.
Qed.

(** A string without separator is its own single segment. *)
Lemma Split_none (s : string) (sep : ascii) :
  contains sep s = false -> strings.Split s sep = [s].
Proof.
  induction s as [|c s IH]; simpl; [reflexivity|].
  intros H. apply orb_false_iff in H. destruct H as [Hc Hs].
  rewrite Hc, (IH Hs). reflexivity.
Qed.

(** Cutting at a separator cuts the list of segments. *)
Lemma Split_append (a b : string) (sep : ascii) :
  strings.Split (a ++ String sep b) sep
  = (strings.Split a sep ++ strings.Split b sep)%list.
Proof.
  induction a as [|c a IH]; simpl.
  - now rewrite Ascii.eqb_refl.
  - destruct (Ascii.eqb c sep); rewrite IH; [reflexivity|].
    pose proof (Split_nonempty a sep) as Hne.
    destruct (strings.Split a sep) as [|h t]; [contradiction | reflexivity].
Qed.

(** Indexing a slice at [len - 1] gives its last element and does not
    panic, unless the slice is empty. *)
Lemma index_last {A : Type} (l : list A) (d : A) :
  l <> [] -> index l (len l - 1) = Some (List.last l d).
Proof.
  intros Hne. unfold index, len.
  destruct l as [|x l]; [contradiction|].
  replace (Z.of_nat (List.length (x :: l)) - 1)%Z
    with (Z.of_nat (List.length l)) by (simpl List.length; lia).
  destruct (Z.ltb_spec (Z.of_nat (List.length l)) 0); [lia|].
  rewrite Nat2Z.id. clear.
  revert x. induction l as [|y l IH]; intros x; [reflexivity|].
  simpl List.length. simpl nth_error. rewrite (IH y). reflexivity.
Qed.

Lemma getLocalBranch_last (s : string) :
  getLocalBranch s = Some (List.last (strings.Split s ":") "").
Proof. unfold getLocalBranch. apply index_last, Split_nonempty. Qed.

Lemma last_append_nonempty {A : Type} (l1 l2 : list A) (d : A) :
  l2 <> [] -> List.last (l1 ++ l2)%list d = List.last l2 d.
Proof.
  intros Hne. destruct l2 as [|x l2]; [contradiction|].
  induction l1 as [|y l1 IH]; [reflexivity|].
  simpl app. destruct (l1 ++ x :: l2)%list eqn:E.
  - destruct l1; discriminate.
  - rewrite <- IH. reflexivity.
Qed.

(** C5: with one or more [":"] in the reference the result is what follows
    the last of them, without [":"] it is the reference itself, and in no
    case does [getLocalBranch] panic. *)
Theorem getLocalBranch_after_last_colon (owner branch s : string) :
  (contains ":" branch = false ->
   getLocalBranch (owner ++ ":" ++ branch) = Some branch)
  /\ (contains ":" s = false -> getLocalBranch s = Some s)
  /\ (exists b, getLocalBranch s = Some b).
Proof.
  split; [|split].
  - intros H. rewrite getLocalBranch_last. simpl append.
    rewrite Split_append, last_append_nonempty by apply Split_nonempty.
    now rewrite (Split_none _ _ H).
  - intros H. rewrite getLocalBranch_last. now rewrite (Split_none _ _ H).
  - eexists. apply getLocalBranch_last.
Qed.

Lemma getLocalBranch_after_last_colon_witness :
  contains ":" "topic" = false
  /\ getLocalBranch ("github:owner/repo" ++ ":" ++ "topic") = Some "topic"
  /\ contains ":" "master" = false
  /\ getLocalBranch "master" = Some "master".
Proof.
  pose proof (getLocalBranch_after_last_colon
                "github:owner/repo" "topic" "master") as [H1 [H2 _]].
  split; [reflexivity|]. split; [apply H1; reflexivity|].
  split; [reflexivity|]. apply H2; reflexivity.
Defined.

(** C10: a reference that ends in [":"] resolves to the empty branch
    name. *)
Theorem getLocalBranch_trailing_colon (s : string) :
  getLocalBranch (s ++ ":") = Some "".
Proof.
  rewrite getLocalBranch_last, Split_append.
  rewrite last_append_nonempty by apply Split_nonempty.
  reflexivity.
Qed.

(** ** [buildEditCommand] *)

(** C8: the command is the editor, the two tokens that set the file type
    exactly for [vim], [gvim] and [mvim], and the path of the draft, which
    is always the last argument. *)
Theorem buildEditCommand_argv (sys : System) (messageFile : string) :
  let editor := Editor (git sys) in
  let command := buildEditCommand sys messageFile in
  (editor = "vim" \/ editor = "gvim" \/ editor = "mvim" ->
   command = [editor; "-c"; "set ft=gitcommit"; messageFile])
  /\ (~ (editor = "vim" \/ editor = "gvim" \/ editor = "mvim") ->
      command = [editor; messageFile])
  /\ (editor = "vim" ->
      command = ["vim"; "-c"; "set ft=gitcommit"; messageFile])
  /\ (editor = "nano" -> command = ["nano"; messageFile])
  /\ index command (len command - 1) = Some messageFile.
Proof.
  cbv zeta. unfold buildEditCommand, regexp.MatchString_vim.
  generalize (Editor (git sys)) as editor. intros editor.
  destruct (String.eqb_spec editor "vim") as [Hv|Hv];
    destruct (String.eqb_spec editor "mvim") as [Hm|Hm];
    destruct (String.eqb_spec editor "gvim") as [Hg|Hg];
    simpl; repeat split; intros; subst;
    try reflexivity; try discriminate; try tauto;
    try (exfalso; intuition congruence).
Qed.

Lemma buildEditCommand_argv_witness :
  let command := buildEditCommand (exampleSystem "vim" "" None) "M" in
  command = ["vim"; "-c"; "set ft=gitcommit"; "M"]
  /\ buildEditCommand (exampleSystem "nano" "" None) "M" = ["nano"; "M"].
Proof.
  split.
  - apply (buildEditCommand_argv (exampleSystem "vim" "" None) "M").
    reflexivity.
  - apply (buildEditCommand_argv (exampleSystem "nano" "" None) "M").
    reflexivity.
Defined.

(** ** [writePullRequestChanges] *)

(** What the function does: the two references are resolved, which cannot
    panic, and the message is written with the operands in place. *)
Lemma writePullRequestChanges_draft (sys : System)
    (messageFile base head : string) (w : World) :
  exists localBase localHead,
    getLocalBranch base = Some localBase
    /\ getLocalBranch head = Some localHead
    /\ writePullRequestChanges sys messageFile base head w
       = ioutil.WriteFile sys messageFile
           (draft base head
              (logSection (CommitLogs (git sys) localBase localHead))) w.
Proof.
  exists (List.last (strings.Split base ":") ""),
         (List.last (strings.Split head ":") "").
  split; [apply getLocalBranch_last|]. split; [apply getLocalBranch_last|].
  unfold writePullRequestChanges, bind, orPanic.
  rewrite !getLocalBranch_last. fold (logSection
    (CommitLogs (git sys) (List.last (strings.Split base ":") "")
       (List.last (strings.Split head ":") ""))).
  generalize (logSection
    (CommitLogs (git sys) (List.last (strings.Split base ":") "")
       (List.last (strings.Split head ":") ""))) as logs.
  intros logs. reflexivity.
Qed.

(** C2, at base [master], head [topic] and an empty commit log: the draft
    starts with a blank line and the header comment, but its instruction
    line reads [pull reuqest]; the line that reads [pull request] is not
    in the draft. *)
Theorem writePullRequestChanges_instruction_line :
  let sys := exampleSystem "vim" "" None in
  let w := snd (writePullRequestChanges sys "M" "master" "topic" emptyWorld) in
  exists text,
    files w "M" = Some text
    /\ strings.HasPrefix text
         (nl ++ "# Requesting a pull to master from topic" ++ nl) = true
    /\ In "# Write a message for this pull reuqest. The first block"
         (strings.Split text "010")
    /\ In "# of the text is the title and the rest is description."
         (strings.Split text "010")
    /\ ~ In "# Write a message for this pull request. The first block"
         (strings.Split text "010").
Proof.
  eexists. split; [vm_compute; reflexivity|].
  split; [vm_compute; reflexivity|].
  split; [vm_compute; tauto|]. split; [vm_compute; tauto|].
  vm_compute. intuition discriminate.
Qed.

(** *** The log section, line by line *)

Lemma Split_segment_no_sep (s : string) (sep : ascii) (l : string) :
  In l (strings.Split s sep) -> contains sep l = false.
Proof.
  revert l. induction s as [|c s IH]; simpl; intros l H.
  - destruct H as [<-|[]]. reflexivity.
  - destruct (Ascii.eqb c sep) eqn:E.
    + destruct H as [<-|H]; [reflexivity | now apply IH].
    + pose proof (Split_nonempty s sep) as Hne.
      destruct (strings.Split s sep) as [|h t]; [contradiction|].
      destruct H as [<-|H].
      * simpl. rewrite E. apply IH. now left.
      * apply IH. now right.
Qed.

(** Bytes put before a text go to its first segment, if they hold no
    separator. *)
Lemma Split_prepend (sep : ascii) (p q h : string) (t : list string) :
  contains sep p = false ->
  strings.Split q sep = h :: t ->
  strings.Split (p ++ q) sep = (p ++ h) :: t.
Proof.
  intros Hp Hq. induction p as [|x p IHp]; simpl; [exact Hq|].
  simpl in Hp. apply orb_false_iff in Hp. destruct Hp as [Hx Hp].
  rewrite Hx, (IHp Hp). reflexivity.
Qed.

(** The replacement at line starts puts the text before every line. *)
Lemma Split_afterLineFeeds (repl src : string) :
  contains "010" repl = false ->
  match strings.Split src "010" with
  | [] => False
  | h :: t =>
      strings.Split (regexp.afterLineFeeds repl src) "010"
      = h :: map (append repl) t
  end.
Proof.
  intros Hrepl. induction src as [|c src IH]; simpl; [reflexivity|].
  destruct (strings.Split src "010") as [|h t]; [contradiction|].
  destruct (Ascii.eqb c "010") eqn:E; simpl.
  - apply Ascii.eqb_eq in E. subst c. simpl.
    f_equal. now apply Split_prepend.
  - rewrite IH. reflexivity.
Qed.

Lemma Split_ReplaceAllString_bol (repl src : string) :
  contains "010" repl = false ->
  strings.Split (regexp.ReplaceAllString_bol src repl) "010"
  = map (append repl) (strings.Split src "010").
Proof.
  intros Hrepl. unfold regexp.ReplaceAllString_bol.
  pose proof (Split_afterLineFeeds repl src Hrepl) as H.
  destruct (strings.Split src "010") as [|h t]; [contradiction|].
  now apply Split_prepend.
Qed.

(** With an empty replacement the flag of [replaceTrailing] is of no
    account. *)
Lemma replaceTrailing_flag (b : bool) (s : string) :
  regexp.replaceTrailing "" b s = regexp.replaceTrailing "" false s.
Proof.
  destruct s as [|c s]; simpl; [reflexivity|].
  destruct (Ascii.eqb c " " && regexp.spacesToEol s); [|reflexivity].
  destruct b; reflexivity.
Qed.

Lemma spacesToEol_first_line (s h : string) (t : list string) :
  strings.Split s "010" = h :: t ->
  regexp.spacesToEol s = regexp.spacesToEol h.
Proof.
  revert h t. induction s as [|c s IH]; simpl; intros h t H.
  - injection H as <- _. reflexivity.
  - destruct (Ascii.eqb c "010") eqn:E.
    + injection H as <- _. reflexivity.
    + pose proof (Split_nonempty s "010") as Hne.
      destruct (strings.Split s "010") as [|h' t']; [contradiction|].
      injection H as <- _. simpl. rewrite E. simpl.
      now rewrite (IH h' t').
Qed.

(** The replacement at line ends works line by line. *)
Lemma Split_ReplaceAllString_eol (src : string) :
  strings.Split (regexp.ReplaceAllString_eol src "") "010"
  = map (fun l => regexp.ReplaceAllString_eol l "")
        (strings.Split src "010").
Proof.
  unfold regexp.ReplaceAllString_eol.
  induction src as [|c src IH]; [reflexivity|].
  pose proof (Split_nonempty src "010") as Hne.
  pose proof (spacesToEol_first_line src) as Hsp.
  simpl. destruct (Ascii.eqb c "010") eqn:E.
  - apply Ascii.eqb_eq in E. subst c. simpl. now rewrite IH.
  - destruct (strings.Split src "010") as [|h t]; [contradiction|].
    specialize (Hsp h t eq_refl). simpl map. simpl regexp.replaceTrailing.
    rewrite <- Hsp.
    destruct (Ascii.eqb c " " && regexp.spacesToEol src).
    + rewrite !(replaceTrailing_flag true). exact IH.
    + simpl. rewrite E, IH. reflexivity.
Qed.

(** A line of spaces is replaced as a whole. *)
Lemma replaceTrailing_spaces (b : bool) (l : string) :
  regexp.spacesToEol l = true -> contains "010" l = false ->
  regexp.replaceTrailing "" b l = "".
Proof.
  revert b. induction l as [|c l IH]; intros b Hsp Hnl; [reflexivity|].
  simpl in *. apply orb_false_iff in Hnl. destruct Hnl as [Hc Hnl].
  rewrite Hc in Hsp. simpl in Hsp. rewrite Hsp.
  apply andb_true_iff in Hsp. destruct Hsp as [_ Hsp].
  destruct b; simpl; now apply IH.
Qed.

Lemma replaceTrailing_empty (l : string) :
  regexp.replaceTrailing "" false l = "" -> regexp.spacesToEol l = true.
Proof.
  destruct l as [|c l]; simpl; [reflexivity|].
  destruct (Ascii.eqb c " " && regexp.spacesToEol l) eqn:E.
  - intros _. apply orb_true_r.
  - discriminate.
Qed.

(** After the replacement no line ends in a space. *)
Lemma replaceTrailing_no_trailing_space (l : string) :
  strings.HasSuffix (regexp.replaceTrailing "" false l) " " = false.
Proof.
  induction l as [|c l IH]; [reflexivity|].
  simpl. destruct (Ascii.eqb c " " && regexp.spacesToEol l) eqn:E.
  - now rewrite replaceTrailing_flag.
  - rewrite HasSuffix_char_cons.
    destruct (regexp.replaceTrailing "" false l) eqn:R; [|exact IH].
    apply replaceTrailing_empty in R. rewrite R, andb_true_r in E. exact E.
Qed.

(** A line of the log section: the line of the log after [# ], without
    the spaces it ends with. *)
Lemma logSection_line (l : string) :
  contains "010" l = false ->
  let line := regexp.ReplaceAllString_eol ("# " ++ l) "" in
  (line = "#" \/ strings.HasPrefix line "# " = true)
  /\ strings.HasPrefix line "#" = true
  /\ strings.HasSuffix line " " = false.
Proof.
  intros Hnl line. subst line. unfold regexp.ReplaceAllString_eol.
  pose proof (replaceTrailing_no_trailing_space ("# " ++ l)) as Hend.
  split; [|split; [|exact Hend]].
  - simpl. destruct (regexp.spacesToEol l) eqn:E.
    + left. now rewrite replaceTrailing_spaces.
    + right. reflexivity.
  - simpl. reflexivity.
Qed.

Lemma Split_logSection (commitLogs : string) :
  strings.Split (logSection commitLogs) "010"
  = map (fun l => regexp.ReplaceAllString_eol ("# " ++ l) "")
        (strings.Split (strings.TrimSpace commitLogs) "010").
Proof.
  unfold logSection. rewrite Split_ReplaceAllString_eol.
  rewrite Split_ReplaceAllString_bol by reflexivity.
  now rewrite map_map.
Qed.

(** On one line, spaces up to the end of the line are spaces only. *)
Lemma spacesToEol_onlySpaces (l : string) :
  contains "010" l = false -> regexp.spacesToEol l = onlySpaces l.
Proof.
  induction l as [|c l IH]; intros H; [reflexivity|].
  simpl in *. apply orb_false_iff in H. destruct H as [Hc Hl].
  now rewrite Hc, (IH Hl).
Qed.

(** What becomes of one line of the log: [#] alone if it is empty or made
    of spaces, and [# ] with more behind it if not. *)
Lemma logSection_line_blank (l : string) :
  contains "010" l = false ->
  regexp.ReplaceAllString_eol ("# " ++ l) ""
  = if onlySpaces l then "#"
    else "# " ++ regexp.replaceTrailing "" false l.
Proof.
  intros Hnl. unfold regexp.ReplaceAllString_eol. simpl.
  rewrite (spacesToEol_onlySpaces l Hnl).
  destruct (onlySpaces l) eqn:E; [|reflexivity].
  rewrite replaceTrailing_spaces;
    [reflexivity | now rewrite spacesToEol_onlySpaces | exact Hnl].
Qed.

Lemma logSection_lines (commitLogs line : string) :
  In line (strings.Split (logSection commitLogs) "010") ->
  (line = "#" \/ strings.HasPrefix line "# " = true)
  /\ strings.HasPrefix line "#" = true
  /\ strings.HasSuffix line " " = false.
Proof.
  unfold logSection. rewrite Split_ReplaceAllString_eol.
  rewrite Split_ReplaceAllString_bol by reflexivity.
  rewrite map_map. intros H. apply in_map_iff in H.
  destruct H as [l [<- Hl]]. apply logSection_line.
  now apply Split_segment_no_sep in Hl.
Qed.

(** C1, as the code has it: when the draft is written, it is the header
    followed by the log section, and every line of the log section is a
    comment line without trailing spaces: it is [#] alone or starts with
    [# ].  The log section has one line for each line of the trimmed
    commit log, in the same order: a line of the log that is empty or made
    of spaces becomes [#], and every other line starts with [# ]. *)
Theorem writePullRequestChanges_log_section (sys : System)
    (messageFile base head : string) (w w' : World) :
  writePullRequestChanges sys messageFile base head w = (Returned None, w') ->
  exists localBase localHead,
    getLocalBranch base = Some localBase
    /\ getLocalBranch head = Some localHead
    /\ let commitLogs := CommitLogs (git sys) localBase localHead in
       let logs := logSection commitLogs in
       files w' messageFile = Some (draft base head logs)
       /\ (forall line, In line (strings.Split logs "010") ->
             (line = "#" \/ strings.HasPrefix line "# " = true)
             /\ strings.HasPrefix line "#" = true
             /\ strings.HasSuffix line " " = false)
       /\ List.length (strings.Split logs "010")
          = List.length
              (strings.Split (strings.TrimSpace commitLogs) "010")
       /\ (forall (i : nat) (l : string),
             nth_error (strings.Split (strings.TrimSpace commitLogs) "010") i
             = Some l ->
             (onlySpaces l = true ->
              nth_error (strings.Split logs "010") i = Some "#")
             /\ (onlySpaces l = false ->
                 exists text,
                   nth_error (strings.Split logs "010") i
                   = Some ("# " ++ text))).
Proof.
  intros H.
  destruct (writePullRequestChanges_draft sys messageFile base head w)
    as [localBase [localHead [Hb [Hh Hw]]]].
  exists localBase, localHead. split; [exact Hb|]. split; [exact Hh|].
  cbv zeta. split; [|split; [intros line; apply logSection_lines|]].
  - rewrite Hw in H. unfold ioutil.WriteFile in H.
    destruct (writeFails sys messageFile w); [discriminate|].
    injection H as <-. simpl. unfold update. now rewrite String.eqb_refl.
  - rewrite Split_logSection. split; [apply length_map|].
    intros i l Hi. rewrite nth_error_map, Hi. cbn [option_map].
    apply nth_error_In, Split_segment_no_sep in Hi.
    rewrite (logSection_line_blank l Hi).
    split; intros ->; [reflexivity | eexists; reflexivity].
Qed.

Lemma writePullRequestChanges_log_section_witness :
  let sys := exampleSystem "vim" ("Fix bug  " ++ nl ++ nl ++ "Add test") None in
  let w' := snd (writePullRequestChanges sys "M" "owner:master" "owner:topic"
                   emptyWorld) in
  files w' "M"
  = Some (draft "owner:master" "owner:topic"
            ("# Fix bug" ++ nl ++ "#" ++ nl ++ "# Add test")).
Proof.
  intros sys w'.
  destruct (writePullRequestChanges_log_section sys "M" "owner:master"
              "owner:topic" emptyWorld w' eq_refl)
    as [localBase [localHead [_ [_ [Hf _]]]]].
  exact Hf.
Defined.

(** C1 as claimed fails: with the commit log [a], blank line, [b], the log
    section of the draft has a line that is [#] alone, which does not
    start with [# ]. *)
Lemma writePullRequestChanges_log_section_counterexample :
  let sys := exampleSystem "vim" ("a" ++ nl ++ nl ++ "b") None in
  let w' := snd (writePullRequestChanges sys "M" "master" "topic"
                   emptyWorld) in
  let logs := "# a" ++ nl ++ "#" ++ nl ++ "# b" in
  files w' "M" = Some (draft "master" "topic" logs)
  /\ ~ (forall line, In line (strings.Split logs "010") ->
          strings.HasPrefix line "# " = true
          /\ strings.HasSuffix line " " = false).
Proof.
  split; [reflexivity|].
  intros H. specialize (H "#"). simpl in H.
  destruct H as [H _]; [tauto | discriminate].
Qed.

(** ** [readln] and [readTitleAndBody] *)

(** [readln_from] is the loop of [readln] over [ReadLine]. *)
Lemma readln_from_ReadLine (ln : string) (r : bufio.Reader) :
  readln_from ln r
  = let '(line, isPrefix, err, r') := bufio.ReadLine r in
    let ln := ln ++ line in
    match err with
    | None => if isPrefix then readln_from ln r' else (ln, err, r')
    | Some _ => (ln, err, r')
    end.
Proof.
  destruct r as [|[line isPrefix] r]; simpl; [|reflexivity].
  now rewrite append_nil_r.
Qed.

Lemma readln_from_lines (r : bufio.Reader) :
  forall ln,
    match readln_from ln r with
    | (l, None, r') => lines_from ln r = l :: lines r'
    | (_, Some _, _) => lines_from ln r = []
    end.
Proof.
  induction r as [|[line isPrefix] r IH]; intros ln; simpl; [reflexivity|].
  destruct isPrefix; [apply IH | reflexivity].
Qed.

(** What [readln] returns, in terms of the lines of the reader. *)
Lemma readln_lines (r : bufio.Reader) :
  match readln r with
  | (l, None, r') => lines r = l :: lines r'
  | (_, Some _, _) => lines r = []
  end.
Proof. apply readln_from_lines. Qed.

(** The loop of [readTitleAndBody] depends on the reader through its
    lines only. *)
Lemma readTitleAndBody_loop_lines (reader : bufio.Reader)
    (titleParts bodyParts : list string) :
  readTitleAndBody_loop reader titleParts bodyParts
  = partsOfLines (lines reader) titleParts bodyParts.
Proof.
  funelim (readTitleAndBody_loop reader titleParts bodyParts).
  all: match goal with
       | E : readln ?r = _ |- _ =>
           pose proof (readln_lines r) as L; rewrite E in L; rewrite L
       end.
  all: cbn [partsOfLines]; try reflexivity.
  match goal with
  | |- context [strings.HasPrefix ?l "#"] =>
      destruct (strings.HasPrefix l "#"); [reflexivity|]
  end.
  match goal with
  | |- context [?c && regexp.MatchString_S ?l] =>
      destruct (c && regexp.MatchString_S l); assumption
  end.
Qed.

Lemma partsOfLines_beforeComment (ls titleParts bodyParts : list string) :
  partsOfLines ls titleParts bodyParts
  = partsOfLines (beforeComment ls) titleParts bodyParts.
Proof.
  revert titleParts bodyParts.
  induction ls as [|line ls IH]; intros tp bp; [reflexivity|].
  cbn [partsOfLines beforeComment].
  destruct (strings.HasPrefix line "#") eqn:E; [reflexivity|].
  cbn [partsOfLines]. rewrite E.
  destruct ((len bp =? 0)%Z && regexp.MatchString_S line); apply IH.
Qed.

(** [readTitleAndBody] in terms of the lines of the reader. *)
Lemma readTitleAndBody_lines (reader : bufio.Reader) :
  readTitleAndBody reader
  = let '(titleParts, bodyParts) := partsOfLines (lines reader) [] [] in
    (strings.TrimSpace (strings.Join titleParts " "),
     strings.TrimSpace (strings.Join bodyParts nl), None).
Proof.
  unfold readTitleAndBody. now rewrite readTitleAndBody_loop_lines.
Qed.

(** C9: [readTitleAndBody] returns, and its error is [nil], whatever the
    reader delivers. *)
Theorem readTitleAndBody_nil_error (reader : bufio.Reader) :
  exists title body, readTitleAndBody reader = (title, body, None).
Proof.
  unfold readTitleAndBody.
  destruct (readTitleAndBody_loop reader [] []) as [titleParts bodyParts].
  eexists. eexists. reflexivity.
Qed.

(** C4: the title and the body depend only on the lines strictly before
    the first line that starts with [#]. *)
Theorem readTitleAndBody_stops_at_comment (reader1 reader2 : bufio.Reader) :
  beforeComment (lines reader1) = beforeComment (lines reader2) ->
  readTitleAndBody reader1 = readTitleAndBody reader2.
Proof.
  intros H. rewrite !readTitleAndBody_lines.
  rewrite (partsOfLines_beforeComment (lines reader1)).
  rewrite (partsOfLines_beforeComment (lines reader2)).
  now rewrite H.
Qed.

Lemma readTitleAndBody_stops_at_comment_witness :
  readTitleAndBody
    (bufio.NewReader ("Title" ++ nl ++ nl ++ "Body" ++ nl ++ "# note" ++ nl
                      ++ "trailing text"))
  = readTitleAndBody
      (bufio.NewReader ("Title" ++ nl ++ nl ++ "Body" ++ nl ++ "#")).
Proof.
  apply readTitleAndBody_stops_at_comment. vm_compute. reflexivity.
Defined.

(** C6: the two drafts of the specification. *)
Theorem readTitleAndBody_examples :
  readTitleAndBody
    (bufio.NewReader ("Fix bug" ++ nl ++ nl ++ "Details here" ++ nl
                      ++ "more details" ++ nl ++ "# ignored"))
  = ("Fix bug", "Details here" ++ nl ++ "more details", None)
  /\ readTitleAndBody
       (bufio.NewReader ("Line one" ++ nl ++ "Line two" ++ nl ++ nl
                         ++ "Body line"))
     = ("Line one Line two", "Body line", None).
Proof. split; vm_compute; reflexivity. Qed.

(** ** [pullRequest] *)

Lemma fatalIf_created (err : error) (w w' : World) (r : result unit) :
  fatalIf err w = (r, w') -> created w' = created w.
Proof.
  destruct err; simpl; unfold log.Fatal, ret;
    intros H; injection H as _ <-; reflexivity.
Qed.

Lemma writePullRequestChanges_created (sys : System)
    (messageFile base head : string) (w w' : World) (r : result error) :
  writePullRequestChanges sys messageFile base head w = (r, w') ->
  created w' = created w.
Proof.
  destruct (writePullRequestChanges_draft sys messageFile base head w)
    as [b [h [_ [_ ->]]]].
  unfold ioutil.WriteFile. destruct (writeFails sys messageFile w);
    intros H; injection H as _ <-; reflexivity.
Qed.

Lemma execCmd_created (sys : System) (command : list string)
    (w w' : World) (r : result error) :
  execCmd sys command w = (r, w') -> created w' = created w.
Proof.
  destruct command as [|name arg]; simpl.
  - intros H; injection H as _ <-; reflexivity.
  - unfold exec.Run. destruct (runs sys (name :: arg) w).
    intros H; injection H as _ <-; reflexivity.
Qed.

Lemma readTitleAndBodyFromFile_world (messageFile : string) (w w' : World)
    (r : result (string * string * error)) :
  readTitleAndBodyFromFile messageFile w = (r, w') -> w' = w.
Proof.
  unfold readTitleAndBodyFromFile, bind, os.Open, os.Close, ret.
  destruct (files w messageFile); intros H; injection H as _ <-; reflexivity.
Qed.

(** C7: when the title parsed from the edited draft is empty, the command
    exits with status 1 and [CreatePullRequest] is not called; in any run a
    request that [pullRequest] creates has a title that is not empty. *)
Theorem pullRequest_empty_title (sys : System) (w : World) :
  let messageFile := joinPath sys (Dir (git sys)) "PULLREQ_EDITMSG" in
  (forall (w1 w2 w3 : World) (body : string),
      writePullRequestChanges sys messageFile (flagPullRequestBase sys)
        (flagPullRequestHead sys) w = (Returned None, w1) ->
      execCmd sys (buildEditCommand sys messageFile) w1
        = (Returned None, w2) ->
      readTitleAndBodyFromFile messageFile w2
        = (Returned ("", body, None), w3) ->
      exists w', pullRequest sys w = (Exited 1, w')
                 /\ created w' = created w)
  /\ (forall request,
         In request (created (snd (pullRequest sys w))) ->
         In request (created w) \/ Title (snd request) <> "").
Proof.
  intros messageFile. split.
  - intros w1 w2 w3 body H1 H2 H3.
    unfold pullRequest. fold messageFile. unfold bind at 1. rewrite H1.
    unfold bind at 1. simpl fatalIf. unfold ret at 1.
    unfold bind at 1. rewrite H2.
    unfold bind at 1. simpl fatalIf. unfold ret at 1.
    unfold bind at 1. rewrite H3.
    unfold bind at 1. simpl fatalIf. unfold ret at 1.
    unfold bind at 1. simpl. eexists. split; [reflexivity|]. simpl.
    apply readTitleAndBodyFromFile_world in H3. subst w3.
    apply execCmd_created in H2. apply writePullRequestChanges_created in H1.
    congruence.
  - intros request. unfold pullRequest. fold messageFile. unfold bind.
    destruct (writePullRequestChanges sys messageFile _ _ w)
      as [[e1| |] w1] eqn:E1;
      apply writePullRequestChanges_created in E1;
      try (simpl; rewrite E1; tauto).
    destruct (fatalIf e1 w1) as [[[]| |] w1'] eqn:F1;
      apply fatalIf_created in F1;
      try (simpl; rewrite F1, E1; tauto).
    destruct (execCmd sys _ w1') as [[e2| |] w2] eqn:E2;
      apply execCmd_created in E2;
      try (simpl; rewrite E2, F1, E1; tauto).
    destruct (fatalIf e2 w2) as [[[]| |] w2'] eqn:F2;
      apply fatalIf_created in F2;
      try (simpl; rewrite F2, E2, F1, E1; tauto).
    destruct (readTitleAndBodyFromFile messageFile w2')
      as [[[[title body] e3]| |] w3] eqn:E3;
      apply readTitleAndBodyFromFile_world in E3; subst w3;
      try (simpl; rewrite F2, E2, F1, E1; tauto).
    destruct (fatalIf e3 w2') as [[[]| |] w3'] eqn:F3;
      apply fatalIf_created in F3;
      try (simpl; rewrite F3, F2, E2, F1, E1; tauto).
    destruct title as [|c title].
    + simpl. rewrite F3, F2, E2, F1, E1. tauto.
    + change ((Z.of_nat (String.length (String c title)) =? 0)%Z) with false.
      unfold ret at 1. unfold gh.CreatePullRequest.
      match goal with
      | |- context [fatalIf ?e ?w0] =>
          destruct (fatalIf e w0) as [r4 w4] eqn:F4;
          apply fatalIf_created in F4
      end.
      assert (G : created w4
                  = (created w
                     ++ [(Owner (git sys), Repo (git sys),
                          {| Title := String c title; Body := body;
                             Base := flagPullRequestBase sys;
                             Head := flagPullRequestHead sys |})])%list).
      { rewrite F4. simpl. congruence. }
      intros Hin.
      assert (Hin' : In request (created w4)) by (destruct r4; exact Hin).
      rewrite G in Hin'. apply in_app_or in Hin'.
      destruct Hin' as [Hin'|[<-|[]]]; [now left | right; discriminate].
Qed.

Lemma pullRequest_empty_title_witness :
  exists w', pullRequest (exampleSystem "vim" "Fix bug" None) emptyWorld
             = (Exited 1, w')
             /\ created w' = created emptyWorld.
Proof.
  pose (sys := exampleSystem "vim" "Fix bug" None).
  pose (w1 := snd (writePullRequestChanges sys ".git/PULLREQ_EDITMSG"
                     "owner:master" "owner:topic" emptyWorld)).
  destruct (pullRequest_empty_title sys emptyWorld) as [H _].
  apply (H w1 w1 w1 ""); vm_compute; reflexivity.
Defined.

(** ** [strings.TrimSpace] *)

Section Trim.

Variable sp2 : ascii -> ascii -> bool.
Variable sp3 : ascii -> ascii -> ascii -> bool.

(** An induction that follows [trim]: it steps over one, two or three
    bytes. *)
Lemma string_ind3 (P : string -> Prop) :
  (forall s,
      (forall a s1, s = String a s1 -> P s1) ->
      (forall a b s2, s = String a (String b s2) -> P s2) ->
      (forall a b c s3, s = String a (String b (String c s3)) -> P s3) ->
      P s) ->
  forall s, P s.
Proof.
  intros step s.
  assert (H : forall n s, String.length s <= n -> P s).
  { clear s. induction n as [|n IH]; intros s Hn.
    - destruct s; [|simpl in Hn; lia].
      apply step; intros; discriminate.
    - apply step.
      + intros a s1 ->. apply IH. simpl in Hn. lia.
      + intros a b s2 ->. apply IH. simpl in Hn. lia.
      + intros a b c s3 ->. apply IH. simpl in Hn. lia. }
  apply (H (String.length s)). lia.
Qed.

(** What [trim] leaves is the end of the string. *)
Lemma trim_suffix (s : string) :
  exists p, s = p ++ strings.trim sp2 sp3 s.
Proof.
  induction s as [s IH1 IH2 IH3] using string_ind3.
  destruct s as [|a s1]; [exists ""; reflexivity|]. simpl.
  destruct (strings.space1 a).
  { destruct (IH1 _ _ eq_refl) as [p Hp]. exists (String a p).
    simpl. now rewrite <- Hp. }
  destruct s1 as [|b s2]; [exists ""; reflexivity|].
  destruct (sp2 a b).
  { destruct (IH2 _ _ _ eq_refl) as [p Hp].
    exists (String a (String b p)). simpl. now rewrite <- Hp. }
  destruct s2 as [|c s3]; [exists ""; reflexivity|].
  destruct (sp3 a b c); [|exists ""; reflexivity].
  destruct (IH3 _ _ _ _ eq_refl) as [p Hp].
  exists (String a (String b (String c p))). simpl. now rewrite <- Hp.
Qed.

(** What [trim] leaves does not start with white space. *)
Lemma trim_startsSpace (s : string) :
  strings.startsSpace sp2 sp3 (strings.trim sp2 sp3 s) = false.
Proof.
  induction s as [s IH1 IH2 IH3] using string_ind3.
  destruct s as [|a s1]; [reflexivity|]. simpl.
  destruct (strings.space1 a) eqn:E1; [apply (IH1 _ _ eq_refl)|].
  destruct s1 as [|b s2]; [simpl; now rewrite E1|].
  destruct (sp2 a b) eqn:E2; [apply (IH2 _ _ _ eq_refl)|].
  destruct s2 as [|c s3]; [simpl; now rewrite E1, E2|].
  destruct (sp3 a b c) eqn:E3; [apply (IH3 _ _ _ _ eq_refl)|].
  simpl. now rewrite E1, E2, E3.
Qed.

(** A string that does not start with white space is left as it is. *)
Lemma trim_fixed (s : string) :
  strings.startsSpace sp2 sp3 s = false -> strings.trim sp2 sp3 s = s.
Proof.
  destruct s as [|a [|b [|c s3]]]; simpl; try reflexivity.
  - rewrite orb_false_r. now intros ->.
  - rewrite orb_false_r. intros H. apply orb_false_iff in H.
    destruct H as [-> ->]. reflexivity.
  - intros H. apply orb_false_iff in H. destruct H as [-> H].
    apply orb_false_iff in H. destruct H as [-> ->]. reflexivity.
Qed.

(** White space at the start of a string is at the start of every
    string that extends it. *)
Lemma startsSpace_append (s q : string) :
  strings.startsSpace sp2 sp3 s = true ->
  strings.startsSpace sp2 sp3 (s ++ q) = true.
Proof.
  destruct s as [|a [|b [|c s3]]]; simpl; try discriminate.
  - rewrite orb_false_r. intros ->. reflexivity.
  - rewrite orb_false_r. intros H. apply orb_true_iff in H.
    destruct H as [->| ->]; [reflexivity|].
    destruct q; simpl; now rewrite orb_true_r.
  - tauto.
Qed.

Lemma startsSpace_first (a : ascii) (s : string) :
  strings.startsSpace sp2 sp3 (String a s) = false ->
  strings.space1 a = false.
Proof. simpl. intros H. now apply orb_false_iff in H. Qed.

End Trim.

Lemma TrimLeft_suffix (s : string) : exists p, s = p ++ strings.TrimLeft s.
Proof. apply trim_suffix. Qed.

Lemma TrimRight_prefix (s : string) : exists q, s = strings.TrimRight s ++ q.
Proof.
  unfold strings.TrimRight.
  destruct (trim_suffix strings.space2r strings.space3r (rev s)) as [p Hp].
  exists (rev p). rewrite <- rev_append, <- Hp. now rewrite rev_involutive.
Qed.

(** The result of [TrimSpace] is a part of its argument. *)
Lemma TrimSpace_substring (s : string) :
  exists p q, s = p ++ strings.TrimSpace s ++ q.
Proof.
  destruct (TrimLeft_suffix s) as [p Hp].
  destruct (TrimRight_prefix (strings.TrimLeft s)) as [q Hq].
  exists p, q. unfold strings.TrimSpace. now rewrite <- Hq.
Qed.

Lemma TrimSpace_contains (x : ascii) (s : string) :
  contains x s = false -> contains x (strings.TrimSpace s) = false.
Proof.
  destruct (TrimSpace_substring s) as [p [q H]]. intros Hs.
  rewrite H, !contains_append in Hs.
  apply orb_false_iff in Hs. destruct Hs as [_ Hs].
  now apply orb_false_iff in Hs.
Qed.

(** The result of [TrimSpace] neither starts nor ends with white space. *)
Lemma TrimSpace_start (s : string) :
  strings.startsSpace strings.space2 strings.space3 (strings.TrimSpace s)
  = false.
Proof.
  destruct (strings.startsSpace strings.space2 strings.space3
              (strings.TrimSpace s)) eqn:E; [|reflexivity].
  destruct (TrimRight_prefix (strings.TrimLeft s)) as [q Hq].
  apply (startsSpace_append _ _ _ q) in E.
  unfold strings.TrimSpace in E. rewrite <- Hq in E.
  unfold strings.TrimLeft in E. now rewrite trim_startsSpace in E.
Qed.

Lemma TrimSpace_end (s : string) :
  strings.startsSpace strings.space2r strings.space3r
    (rev (strings.TrimSpace s)) = false.
Proof.
  unfold strings.TrimSpace, strings.TrimRight.
  rewrite rev_involutive. apply trim_startsSpace.
Qed.

Lemma TrimSpace_idempotent (s : string) :
  strings.TrimSpace (strings.TrimSpace s) = strings.TrimSpace s.
Proof.
  unfold strings.TrimSpace at 1. unfold strings.TrimLeft.
  rewrite (trim_fixed _ _ _ (TrimSpace_start s)).
  unfold strings.TrimRight.
  rewrite (trim_fixed _ _ _ (TrimSpace_end s)).
  apply rev_involutive.
Qed.

(** A line feed before the text is white space. *)
Lemma TrimSpace_nl (s : string) :
  strings.TrimSpace (nl ++ s) = strings.TrimSpace s.
Proof. reflexivity. Qed.

Lemma space1_nonSpace (c : ascii) :
  strings.space1 c = false -> regexp.nonSpace c = true.
Proof.
  unfold strings.space1, regexp.nonSpace. generalize (byte c) as n.
  intros n H. apply orb_false_iff in H. destruct H as [H1 H2].
  rewrite H2, orb_false_r. apply negb_true_iff.
  apply andb_false_iff in H1.
  repeat rewrite orb_false_iff. repeat split; apply N.eqb_neq; intros ->;
    destruct H1 as [H1|H1]; discriminate.
Qed.

(** A trimmed text that is not empty has a character that is not white
    space for the parser: its first one. *)
Lemma TrimSpace_MatchString_S (s : string) :
  strings.TrimSpace s <> "" ->
  regexp.MatchString_S (strings.TrimSpace s) = true.
Proof.
  pose proof (TrimSpace_start s) as H.
  destruct (strings.TrimSpace s) as [|c u]; [congruence|]. intros _.
  apply startsSpace_first, space1_nonSpace in H. simpl. now rewrite H.
Qed.

(** A trimmed text ends neither in a line feed nor in a carriage return. *)
Lemma TrimSpace_last (s : string) :
  strings.HasSuffix (strings.TrimSpace s) nl = false
  /\ bufio.dropCR (strings.TrimSpace s) = strings.TrimSpace s.
Proof.
  pose proof (TrimSpace_end s) as H.
  unfold strings.HasSuffix, bufio.dropCR.
  destruct (rev (strings.TrimSpace s)) as [|c r]; [split; reflexivity|].
  apply startsSpace_first in H. unfold strings.space1 in H.
  apply orb_false_iff in H. destruct H as [H _].
  split.
  - simpl. destruct (Ascii.eqb_spec c "010") as [->|]; [discriminate H|].
    reflexivity.
  - destruct (Ascii.eqb_spec c "013") as [->|]; [discriminate H|].
    reflexivity.
Qed.

(** ** The lines of a text *)

Lemma dropCR_contains (x : ascii) (buf : string) :
  contains x buf = false -> contains x (bufio.dropCR buf) = false.
Proof.
  intros H. unfold bufio.dropCR.
  destruct (rev buf) as [|c r] eqn:E; [exact H|].
  destruct (Ascii.eqb c "013"); [|exact H].
  rewrite contains_rev. rewrite <- contains_rev, E in H. simpl in H.
  now apply orb_false_iff in H.
Qed.

Lemma dropCR_no_CR (buf : string) :
  strings.HasSuffix buf cr = false -> bufio.dropCR buf = buf.
Proof.
  unfold strings.HasSuffix, bufio.dropCR.
  destruct (rev buf) as [|c r]; [reflexivity|]. simpl.
  rewrite andb_true_r. now intros ->.
Qed.

(** No line that [readln] reads from a file holds a line feed. *)
Lemma lines_fragments_no_LF (size : nat) (text : string) :
  forall ln buf line,
    contains "010" ln = false -> contains "010" buf = false ->
    In line (lines_from ln (bufio.fragments size buf text)) ->
    contains "010" line = false.
Proof.
  induction text as [|c text IH]; intros ln buf line Hln Hbuf; simpl.
  - destruct buf; simpl; [tauto|]. intros [<-|[]].
    rewrite contains_append, Hln. exact Hbuf.
  - destruct (Ascii.eqb c "010") eqn:E; simpl.
    + intros [<-|H].
      * rewrite contains_append, Hln. now apply dropCR_contains.
      * now apply (IH "" "").
    + assert (Hbuf' : contains "010" (buf ++ String c "") = false).
      { rewrite contains_append, Hbuf. simpl. now rewrite E. }
      destruct (String.length (buf ++ String c "") <? size)%nat.
      * now apply IH.
      * destruct (Ascii.eqb c "013"); simpl; apply IH;
          rewrite ?contains_append, ?Hln, ?Hbuf; simpl;
          rewrite ?E; auto.
Qed.

Lemma lines_NewReader_no_LF (text line : string) :
  In line (lines (bufio.NewReader text)) -> contains "010" line = false.
Proof. now apply lines_fragments_no_LF. Qed.

Lemma lines_from_whole (ls : list string) :
  lines_from "" (map (fun l => (l, false)) ls) = ls.
Proof. induction ls as [|l ls IH]; simpl; [reflexivity | now rewrite IH]. Qed.

(** A text shorter than the buffer is delivered in whole lines. *)
Lemma fragments_whole (size : nat) (text : string) :
  forall buf,
    String.length buf + String.length text < size ->
    bufio.fragments size buf text
    = map (fun l => (l, false)) (wholeLines buf text).
Proof.
  induction text as [|c text IH]; intros buf Hlen; simpl.
  - destruct buf; reflexivity.
  - simpl in Hlen. destruct (Ascii.eqb c "010").
    + simpl. rewrite IH by (simpl; lia). reflexivity.
    + assert (L : String.length (buf ++ String c "") = S (String.length buf)).
      { rewrite length_append. simpl. lia. }
      destruct (Nat.ltb_spec (String.length (buf ++ String c "")) size);
        [|lia].
      apply IH. lia.
Qed.

Lemma lines_NewReader_short (text : string) :
  String.length text < bufio.defaultBufSize ->
  lines (bufio.NewReader text) = wholeLines "" text.
Proof.
  intros H. unfold lines, bufio.NewReader.
  rewrite fragments_whole by exact H. apply lines_from_whole.
Qed.

(** The lines of a text that starts with a line. *)
Lemma wholeLines_line (a rest : string) :
  forall buf,
    contains "010" a = false ->
    wholeLines buf (a ++ nl ++ rest)
    = bufio.dropCR (buf ++ a) :: wholeLines "" rest.
Proof.
  induction a as [|c a IH]; intros buf Ha; simpl.
  - now rewrite append_nil_r.
  - simpl in Ha. apply orb_false_iff in Ha. destruct Ha as [Hc Ha].
    rewrite Hc, (IH _ Ha), append_assoc. reflexivity.
Qed.

Lemma wholeLines_nil (buf text : string) :
  wholeLines buf text = [] -> buf = "" /\ text = "".
Proof.
  revert buf. induction text as [|c text IH]; intros buf; simpl.
  - destruct buf; [tauto | discriminate].
  - destruct (Ascii.eqb c "010"); [discriminate|].
    intros H. apply IH in H. destruct H as [H _]. destruct buf; discriminate.
Qed.

Lemma noCRLF_buf (buf text : string) :
  noCRLF (buf ++ nl ++ text) = true ->
  strings.HasSuffix buf cr = false /\ noCRLF text = true.
Proof.
  induction buf as [|x buf IH]; simpl.
  - intros H. split; [reflexivity | exact H].
  - intros H. apply andb_true_iff in H. destruct H as [H1 H2].
    destruct (IH H2) as [IH1 IH2]. split; [|exact IH2].
    unfold cr. rewrite HasSuffix_char_cons.
    destruct buf as [|y buf]; [|exact IH1].
    simpl in H1. rewrite andb_true_r in H1. now apply negb_true_iff in H1.
Qed.

(** Joining the lines of a text gives the text back, when no line feed
    follows a carriage return and the text does not end in a line feed. *)
Lemma Join_wholeLines (text : string) :
  forall buf,
    noCRLF (buf ++ text) = true ->
    strings.HasSuffix text nl = false ->
    strings.Join (wholeLines buf text) nl = buf ++ text.
Proof.
  induction text as [|c text IH]; intros buf Hcr Hend.
  - simpl. rewrite append_nil_r. destruct buf; reflexivity.
  - simpl. unfold nl in Hend. rewrite HasSuffix_char_cons in Hend.
    destruct (Ascii.eqb_spec c "010") as [->|Hc].
    + destruct text as [|d text]; [discriminate Hend|].
      destruct (noCRLF_buf _ _ Hcr) as [Hbuf Htext].
      rewrite (dropCR_no_CR _ Hbuf).
      specialize (IH "" Htext Hend).
      destruct (wholeLines "" (String d text)) as [|l ls] eqn:E.
      * apply wholeLines_nil in E. destruct E; discriminate.
      * change (strings.Join (buf :: l :: ls) nl)
          with (buf ++ nl ++ strings.Join (l :: ls) nl).
        rewrite IH. reflexivity.
    + rewrite IH.
      * now rewrite append_assoc.
      * now rewrite append_assoc.
      * destruct text; [reflexivity | exact Hend].
Qed.

Lemma HasSuffix_append_char (s : string) (c x : ascii) :
  strings.HasSuffix (s ++ String c "") (String x "") = Ascii.eqb c x.
Proof.
  unfold strings.HasSuffix. rewrite rev_append. simpl. apply andb_true_r.
Qed.

Lemma dropCR_append (ln buf : string) :
  buf <> "" -> bufio.dropCR (ln ++ buf) = ln ++ bufio.dropCR buf.
Proof.
  intros Hne. unfold bufio.dropCR. rewrite rev_append.
  destruct (rev buf) as [|c r] eqn:E.
  - apply (f_equal rev) in E. rewrite rev_involutive in E. contradiction.
  - simpl. destruct (Ascii.eqb c "013"); [|reflexivity].
    rewrite rev_append, rev_involutive. reflexivity.
Qed.

Lemma endsUnfinished_pending (r : bufio.Reader) (pending : bool) :
  endsUnfinished true r = false -> endsUnfinished pending r = false.
Proof. destruct r as [|[line isPrefix] r]; [discriminate | exact (fun H => H)]. Qed.

(** A reader that does not end in the middle of a line delivers the lines
    of the text whole, however long they are.  [ln] and [buf] are the
    bytes of the current line read before; [ln] does not end in a carriage
    return when [buf] is empty, since a carriage return that fills the
    buffer is put back. *)
Lemma lines_fragments_finished (size : nat) (text : string) :
  forall ln buf,
    (buf = "" -> strings.HasSuffix ln cr = false) ->
    endsUnfinished (negb (String.eqb ln "")) (bufio.fragments size buf text)
    = false ->
    lines_from ln (bufio.fragments size buf text)
    = wholeLines (ln ++ buf) text.
Proof.
  induction text as [|c text IH]; intros ln buf Hinv Hend.
  - cbn [bufio.fragments wholeLines] in *. destruct buf as [|b buf].
    + cbn in Hend. apply negb_false_iff, String.eqb_eq in Hend. now subst ln.
    + cbn [lines_from]. destruct ln; reflexivity.
  - cbn [bufio.fragments wholeLines] in *.
    destruct (Ascii.eqb c "010").
    + cbn [lines_from endsUnfinished] in *. rewrite (IH "" "");
        [ | reflexivity | exact Hend ].
      f_equal. destruct buf as [|b buf].
      * change (bufio.dropCR "") with "". rewrite !append_nil_r.
        symmetry. now apply dropCR_no_CR, Hinv.
      * symmetry. now apply dropCR_append.
    + cbv zeta in Hend.
      destruct (String.length (buf ++ String c "") <? size)%nat.
      * rewrite IH; [now rewrite append_assoc | | exact Hend].
        intros E. destruct buf; discriminate.
      * destruct (Ascii.eqb c "013") eqn:Ecr;
          cbn [lines_from endsUnfinished] in *.
        -- rewrite IH;
             [ now rewrite !append_assoc
             | discriminate
             | now apply endsUnfinished_pending ].
        -- rewrite IH;
             [ now rewrite append_nil_r, !append_assoc
             | intros _; unfold cr;
               now rewrite <- append_assoc, HasSuffix_append_char
             | now apply endsUnfinished_pending ].
Qed.

Lemma lines_NewReader_finished (text : string) :
  endsUnfinished false (bufio.NewReader text) = false ->
  lines (bufio.NewReader text) = wholeLines "" text.
Proof.
  intros H. unfold lines, bufio.NewReader.
  now rewrite lines_fragments_finished.
Qed.

(** A text shorter than the buffer never ends in the middle of a line. *)
Lemma NewReader_short_finished (text : string) :
  String.length text < bufio.defaultBufSize ->
  endsUnfinished false (bufio.NewReader text) = false.
Proof.
  intros H. unfold bufio.NewReader. rewrite fragments_whole by exact H.
  generalize (wholeLines "" text) as ls.
  induction ls as [|l ls IH]; [reflexivity | exact IH].
Qed.

(** ** Parsing what was parsed *)

Lemma contains_Join (x : ascii) (sep : string) (ls : list string) :
  contains x sep = false ->
  (forall l, In l ls -> contains x l = false) ->
  contains x (strings.Join ls sep) = false.
Proof.
  intros Hsep. induction ls as [|l ls IH]; intros H; [reflexivity|].
  destruct ls as [|l' ls]; [apply H; now left|].
  change (strings.Join (l :: l' :: ls) sep)
    with (l ++ sep ++ strings.Join (l' :: ls) sep).
  rewrite !contains_append, Hsep, (H l) by now left.
  simpl. apply IH. intros l0 H0. apply H. now right.
Qed.

(** The title parts are lines of the input. *)
Lemma partsOfLines_title (ls : list string) :
  forall tp bp tp' bp',
    partsOfLines ls tp bp = (tp', bp') ->
    forall l, In l tp' -> In l tp \/ In l ls.
Proof.
  induction ls as [|line ls IH]; intros tp bp tp' bp' H l Hl.
  - injection H as <- _. now left.
  - cbn [partsOfLines] in H.
    destruct (strings.HasPrefix line "#").
    { injection H as <- _. now left. }
    destruct ((len bp =? 0)%Z && regexp.MatchString_S line).
    + destruct (IH _ _ _ _ H l Hl) as [H1|H1]; [|right; now right].
      apply in_app_or in H1. destruct H1 as [H1|[<-|[]]];
        [now left | right; now left].
    + destruct (IH _ _ _ _ H l Hl) as [H1|H1]; [now left | right; now right].
Qed.

(** Once the body has a part, every line up to the first comment goes to
    the body. *)
Lemma partsOfLines_body (ls : list string) :
  forall tp bp,
    bp <> [] ->
    (forall l, In l ls -> strings.HasPrefix l "#" = false) ->
    partsOfLines ls tp bp = (tp, (bp ++ ls)%list).
Proof.
  induction ls as [|line ls IH]; intros tp bp Hbp H.
  - now rewrite app_nil_r.
  - cbn [partsOfLines]. rewrite (H line) by now left.
    assert (E : (len bp =? 0)%Z = false).
    { unfold len. destruct bp; [contradiction|]. reflexivity. }
    rewrite E. cbn [andb]. rewrite IH.
    + now rewrite <- app_assoc.
    + destruct bp; discriminate.
    + intros l Hl. apply H. now right.
Qed.

Lemma TrimSpace_Join_blank (ls : list string) :
  strings.TrimSpace (strings.Join ("" :: ls) nl)
  = strings.TrimSpace (strings.Join ls nl).
Proof. destruct ls as [|l ls]; reflexivity. Qed.

(** C3, as the code has it: parsing [title], a blank line and [body] again
    gives [title] and [body] back, when no line of that text starts with
    [#], no carriage return of the body stands before a line feed, and the
    reader of that text does not end in the middle of a line (the text
    does not stop just as its last line fills the buffer).  The text and
    its lines may be longer than the buffer. *)
Theorem readTitleAndBody_idempotent (text title body : string) :
  readTitleAndBody (bufio.NewReader text) = (title, body, None) ->
  (forall line,
      In line (lines (bufio.NewReader (title ++ nl ++ nl ++ body))) ->
      strings.HasPrefix line "#" = false) ->
  noCRLF body = true ->
  endsUnfinished false (bufio.NewReader (title ++ nl ++ nl ++ body))
  = false ->
  readTitleAndBody (bufio.NewReader (title ++ nl ++ nl ++ body))
  = (title, body, None).
Proof.
  intros Hparse Hcomment Hcr Hend.
  rewrite readTitleAndBody_lines in Hparse.
  destruct (partsOfLines (lines (bufio.NewReader text)) [] [])
    as [tp bp] eqn:E.
  injection Hparse as Htitle Hbody.
  (* the title holds no line feed *)
  assert (Hnl : contains "010" title = false).
  { rewrite <- Htitle. apply TrimSpace_contains, contains_Join; [reflexivity|].
    intros l Hl. destruct (partsOfLines_title _ _ _ _ _ E l Hl) as [[]|H].
    now apply lines_NewReader_no_LF in H. }
  (* the lines of the text put together again *)
  assert (Hlines : lines (bufio.NewReader (title ++ nl ++ nl ++ body))
                   = title :: "" :: wholeLines "" body).
  { rewrite lines_NewReader_finished by exact Hend.
    rewrite wholeLines_line by exact Hnl. simpl append at 1.
    rewrite <- Htitle at 1. rewrite (proj2 (TrimSpace_last _)), Htitle.
    reflexivity. }
  assert (Hjoin : strings.Join (wholeLines "" body) nl = body).
  { apply (Join_wholeLines body ""); [exact Hcr|].
    rewrite <- Hbody. apply TrimSpace_last. }
  rewrite Hlines in Hcomment.
  rewrite readTitleAndBody_lines, Hlines.
  assert (Hrest : forall l, In l (wholeLines "" body) ->
                            strings.HasPrefix l "#" = false).
  { intros l Hl. apply Hcomment. right. now right. }
  cbn [partsOfLines]. rewrite (Hcomment title) by now left.
  change (len (@nil string) =? 0)%Z with true. cbn [andb].
  destruct title as [|c title'] eqn:Et.
  - cbn [regexp.MatchString_S strings.HasPrefix app len].
    change (len [""] =? 0)%Z with false. cbn [andb].
    rewrite partsOfLines_body by (auto; discriminate).
    cbn [app]. rewrite !TrimSpace_Join_blank, Hjoin.
    rewrite <- Hbody at 1. rewrite TrimSpace_idempotent, Hbody.
    reflexivity.
  - rewrite <- Et in *.
    assert (Hm : regexp.MatchString_S title = true).
    { rewrite <- Htitle. apply TrimSpace_MatchString_S.
      rewrite Htitle, Et. discriminate. }
    rewrite Hm. cbn [app partsOfLines strings.HasPrefix regexp.MatchString_S].
    rewrite partsOfLines_body by (auto; discriminate).
    cbn [app]. rewrite TrimSpace_Join_blank, Hjoin.
    cbn [strings.Join].
    rewrite <- Hbody at 1. rewrite <- Htitle at 1.
    rewrite !TrimSpace_idempotent, Hbody, Htitle.
    reflexivity.
Qed.

Lemma readTitleAndBody_idempotent_witness :
  let body := replicate 5000 "x" ++ nl ++ "more details" in
  readTitleAndBody (bufio.NewReader ("Fix bug" ++ nl ++ nl ++ body))
  = ("Fix bug", body, None).
Proof.
  intros body.
  apply (readTitleAndBody_idempotent
           ("  Fix bug " ++ nl ++ nl ++ nl ++ body ++ nl ++ nl
            ++ "# Changes:")
           "Fix bug" body).
  - vm_compute. reflexivity.
  - intros line H. vm_compute in H.
    repeat (destruct H as [<-|H]; [reflexivity|]). destruct H.
  - vm_compute. reflexivity.
  - vm_compute. reflexivity.
Defined.

(** C3 as claimed fails: a body line that ends in a carriage return keeps
    it when it is parsed, and loses it when the text put together from the
    title and the body is parsed again. *)
Lemma readTitleAndBody_idempotent_counterexample :
  let text := "t" ++ nl ++ nl ++ "a" ++ cr ++ cr ++ nl ++ "b" in
  let title := "t" in
  let body := "a" ++ cr ++ nl ++ "b" in
  readTitleAndBody (bufio.NewReader text) = (title, body, None)
  /\ (forall line,
         In line (lines (bufio.NewReader (title ++ nl ++ nl ++ body))) ->
         strings.HasPrefix line "#" = false)
  /\ readTitleAndBody (bufio.NewReader (title ++ nl ++ nl ++ body))
     = (title, "a" ++ nl ++ "b", None)
  /\ readTitleAndBody (bufio.NewReader (title ++ nl ++ nl ++ body))
     <> (title, body, None).
Proof.
  split; [vm_compute; reflexivity|]. split; [|split].
  - intros line H. vm_compute in H.
    repeat (destruct H as [<-|H]; [reflexivity|]). destruct H.
  - vm_compute. reflexivity.
  - vm_compute. discriminate.
Qed.

(** Why the reader must not end in the middle of a line: a last line that
    fills the buffer exactly comes as a fragment followed by [io.EOF], so
    [readln] returns it together with the error and the loop of
    [readTitleAndBody] drops it.  A body of one line of 4096 bytes is lost
    when it is parsed again. *)
Lemma readTitleAndBody_full_buffer :
  let body := replicate bufio.defaultBufSize "x" in
  readTitleAndBody (bufio.NewReader ("t" ++ nl ++ nl ++ body ++ nl))
  = ("t", body, None)
  /\ readTitleAndBody (bufio.NewReader ("t" ++ nl ++ nl ++ body))
     = ("t", "", None).
Proof. split; vm_compute; reflexivity. Qed.

(* ================================================================== *)
(** * Part III: further properties of the code                         *)
(* ================================================================== *)

(** ** The steps of [pullRequest] *)

Lemma fatalIf_cases (err : error) (w : World) :
  (err = None /\ fatalIf err w = (Returned tt, w))
  \/ (exists e, err = Some e /\ fatalIf err w = log.Fatal e w).
Proof. destruct err as [e|]; [right; exists e | left]; split; reflexivity. Qed.

(** [writePullRequestChanges] returns: it neither panics nor exits, and it
    leaves the requests and the log alone. *)
Lemma writePullRequestChanges_returns (sys : System)
    (messageFile base head : string) (w : World) :
  exists err w1,
    writePullRequestChanges sys messageFile base head w = (Returned err, w1)
    /\ created w1 = created w /\ logged w1 = logged w.
Proof.
  destruct (writePullRequestChanges_draft sys messageFile base head w)
    as [b [h [_ [_ ->]]]].
  unfold ioutil.WriteFile. destruct (writeFails sys messageFile w) as [e|].
  - exists (Some e), w. repeat split.
  - eexists None, _. repeat split.
Qed.

(** So does [execCmd] on the command that [buildEditCommand] builds, which
    is never empty. *)
Lemma execCmd_returns (sys : System) (messageFile : string) (w : World) :
  exists err w2,
    execCmd sys (buildEditCommand sys messageFile) w = (Returned err, w2)
    /\ created w2 = created w /\ logged w2 = logged w
    /\ runs sys (buildEditCommand sys messageFile) w = (err, files w2).
Proof.
  unfold buildEditCommand.
  destruct (regexp.MatchString_vim (Editor (git sys))); simpl;
    unfold exec.Run;
    match goal with
    | |- context [runs sys ?c w] => destruct (runs sys c w) as [err fs]
    end;
    exists err; eexists; repeat split.
Qed.

Lemma readTitleAndBodyFromFile_returns (messageFile : string) (w : World) :
  exists title body err,
    readTitleAndBodyFromFile messageFile w = (Returned (title, body, err), w).
Proof.
  unfold readTitleAndBodyFromFile, bind, os.Open, os.Close, ret.
  destruct (files w messageFile) as [data|].
  - simpl os.contents.
    destruct (readTitleAndBody (bufio.NewReader data)) as [[title body] err].
    now exists title, body, err.
  - now eexists "", "", (Some _).
Qed.

(** [pullRequest] after its first three steps. *)
Lemma pullRequest_steps (sys : System) (w w1 w2 : World)
    (title body : string) (err : error) :
  let messageFile := joinPath sys (Dir (git sys)) "PULLREQ_EDITMSG" in
  writePullRequestChanges sys messageFile (flagPullRequestBase sys)
    (flagPullRequestHead sys) w = (Returned None, w1) ->
  execCmd sys (buildEditCommand sys messageFile) w1 = (Returned None, w2) ->
  readTitleAndBodyFromFile messageFile w2
    = (Returned (title, body, err), w2) ->
  pullRequest sys w
  = (fatalIf err ;;
     (if (Z.of_nat (String.length title) =? 0)%Z
      then log.Fatal "Aborting due to empty pull request title"
      else ret tt) ;;
     err' <- gh.CreatePullRequest sys (Owner (git sys)) (Repo (git sys))
               {| Title := title; Body := body;
                  Base := flagPullRequestBase sys;
                  Head := flagPullRequestHead sys |} ;;
     fatalIf err') w2.
Proof.
  intros messageFile H1 H2 H3.
  unfold pullRequest. fold messageFile. unfold bind at 1. rewrite H1.
  unfold bind at 1. simpl fatalIf. unfold ret at 1.
  unfold bind at 1. rewrite H2.
  unfold bind at 1. simpl fatalIf. unfold ret at 1.
  unfold bind at 1. rewrite H3. reflexivity.
Qed.

Lemma pullRequest_write_error (sys : System) (w w1 : World) (e : string) :
  let messageFile := joinPath sys (Dir (git sys)) "PULLREQ_EDITMSG" in
  writePullRequestChanges sys messageFile (flagPullRequestBase sys)
    (flagPullRequestHead sys) w = (Returned (Some e), w1) ->
  pullRequest sys w = log.Fatal e w1.
Proof.
  intros messageFile H1.
  unfold pullRequest. fold messageFile. unfold bind at 1. rewrite H1.
  reflexivity.
Qed.

Lemma pullRequest_edit_error (sys : System) (w w1 w2 : World) (e : string) :
  let messageFile := joinPath sys (Dir (git sys)) "PULLREQ_EDITMSG" in
  writePullRequestChanges sys messageFile (flagPullRequestBase sys)
    (flagPullRequestHead sys) w = (Returned None, w1) ->
  execCmd sys (buildEditCommand sys messageFile) w1
    = (Returned (Some e), w2) ->
  pullRequest sys w = log.Fatal e w2.
Proof.
  intros messageFile H1 H2.
  unfold pullRequest. fold messageFile. unfold bind at 1. rewrite H1.
  unfold bind at 1. simpl fatalIf. unfold ret at 1.
  unfold bind at 1. rewrite H2. reflexivity.
Qed.

(** X1: however the system answers, [pullRequest] does not panic: either it
    returns, having logged nothing and sent one request, or it exits with
    status 1, having logged one message and sent one request at most. *)
Theorem pullRequest_outcomes (sys : System) (w : World) :
  let r := fst (pullRequest sys w) in
  let w' := snd (pullRequest sys w) in
  (r = Returned tt /\ logged w' = logged w
   /\ exists request, created w' = (created w ++ [request])%list)
  \/ (r = Exited 1
      /\ (exists message, logged w' = (logged w ++ [message])%list)
      /\ (created w' = created w
          \/ exists request, created w' = (created w ++ [request])%list)).
Proof.
  cbv zeta.
  set (messageFile := joinPath sys (Dir (git sys)) "PULLREQ_EDITMSG").
  destruct (writePullRequestChanges_returns sys messageFile
              (flagPullRequestBase sys) (flagPullRequestHead sys) w)
    as [e1 [w1 [H1 [C1 L1]]]].
  destruct e1 as [e1|].
  { right. rewrite (pullRequest_write_error sys w w1 e1 H1).
    simpl. rewrite C1, L1. eauto. }
  destruct (execCmd_returns sys messageFile w1) as [e2 [w2 [H2 [C2 [L2 _]]]]].
  destruct e2 as [e2|].
  { right. rewrite (pullRequest_edit_error sys w w1 w2 e2 H1 H2).
    simpl. rewrite C2, L2, C1, L1. eauto. }
  destruct (readTitleAndBodyFromFile_returns messageFile w2)
    as [title [body [e3 H3]]].
  rewrite (pullRequest_steps sys w w1 w2 title body e3 H1 H2 H3).
  destruct e3 as [e3|].
  { right. simpl. rewrite C2, L2, C1, L1. eauto. }
  destruct title as [|c title].
  { right. simpl. rewrite C2, L2, C1, L1. eauto. }
  unfold bind, gh.CreatePullRequest. simpl.
  destruct (createFails sys _ _ _ w2) as [e4|]; simpl;
    rewrite C2, L2, C1, L1; [right | left]; eauto 6.
Qed.

(** X2: when the draft is written, the editor succeeds and the title read
    back is not empty, [pullRequest] sends exactly one request: to the
    owner and repository of [git], with the title and body read back and
    the base and head as the flags give them (the references, not the
    local branch names).  It returns if GitHub accepts the request and
    exits with status 1 if not. *)
Theorem pullRequest_submits (sys : System) (w w1 w2 : World)
    (title body : string) :
  let messageFile := joinPath sys (Dir (git sys)) "PULLREQ_EDITMSG" in
  let params := {| Title := title; Body := body;
                   Base := flagPullRequestBase sys;
                   Head := flagPullRequestHead sys |} in
  writePullRequestChanges sys messageFile (flagPullRequestBase sys)
    (flagPullRequestHead sys) w = (Returned None, w1) ->
  execCmd sys (buildEditCommand sys messageFile) w1 = (Returned None, w2) ->
  readTitleAndBodyFromFile messageFile w2
    = (Returned (title, body, None), w2) ->
  title <> "" ->
  created (snd (pullRequest sys w))
  = (created w ++ [(Owner (git sys), Repo (git sys), params)])%list
  /\ fst (pullRequest sys w)
     = match createFails sys (Owner (git sys)) (Repo (git sys)) params w2 with
       | None => Returned tt
       | Some _ => Exited 1
       end.
Proof.
  intros messageFile params H1 H2 H3 Ht.
  rewrite (pullRequest_steps sys w w1 w2 title body None H1 H2 H3).
  destruct (writePullRequestChanges_returns sys messageFile
              (flagPullRequestBase sys) (flagPullRequestHead sys) w)
    as [e1 [w1' [H1' [C1 _]]]].
  rewrite H1 in H1'. injection H1' as _ <-.
  destruct (execCmd_returns sys messageFile w1) as [e2 [w2' [H2' [C2 _]]]].
  rewrite H2 in H2'. injection H2' as _ <-.
  destruct title as [|c title]; [congruence|].
  unfold bind, gh.CreatePullRequest. simpl. fold params.
  destruct (createFails sys (Owner (git sys)) (Repo (git sys)) params w2);
    simpl; rewrite C2, C1; split; reflexivity.
Qed.

Lemma pullRequest_submits_witness :
  let sys := exampleSystem "vim" "Fix bug"
               (Some ("Fix the parser" ++ nl ++ nl ++ "It dropped lines.")) in
  created (snd (pullRequest sys emptyWorld))
  = [("owner", "hub",
      {| Title := "Fix the parser"; Body := "It dropped lines.";
         Base := "owner:master"; Head := "owner:topic" |})]
  /\ fst (pullRequest sys emptyWorld) = Returned tt.
Proof.
  intros sys.
  pose (w1 := snd (writePullRequestChanges sys ".git/PULLREQ_EDITMSG"
                     "owner:master" "owner:topic" emptyWorld)).
  pose (w2 := snd (execCmd sys
                     (buildEditCommand sys ".git/PULLREQ_EDITMSG") w1)).
  apply (pullRequest_submits sys emptyWorld w1 w2
           "Fix the parser" "It dropped lines.").
  - vm_compute. reflexivity.
  - vm_compute. reflexivity.
  - vm_compute. reflexivity.
  - discriminate.
Defined.

(** X3: a failure before the request is fatal and keeps what is there: if
    the draft cannot be written, if the editor fails, or if the draft is
    gone after the editor, [pullRequest] logs that error (for the missing
    draft: [open], the path, [no such file or directory]) and exits with
    status 1 in the state the failure left, without sending a request. *)
Theorem pullRequest_fails_early (sys : System) (w w1 w2 : World)
    (e : string) :
  let messageFile := joinPath sys (Dir (git sys)) "PULLREQ_EDITMSG" in
  let write := writePullRequestChanges sys messageFile
                 (flagPullRequestBase sys) (flagPullRequestHead sys) w in
  let edit := execCmd sys (buildEditCommand sys messageFile) w1 in
  (write = (Returned (Some e), w1) ->
   pullRequest sys w = log.Fatal e w1 /\ created w1 = created w)
  /\ (write = (Returned None, w1) -> edit = (Returned (Some e), w2) ->
      pullRequest sys w = log.Fatal e w2 /\ created w2 = created w)
  /\ (write = (Returned None, w1) -> edit = (Returned None, w2) ->
      files w2 messageFile = None ->
      pullRequest sys w
      = log.Fatal ("open " ++ messageFile ++ ": no such file or directory") w2
      /\ created w2 = created w).
Proof.
  intros messageFile write edit. subst write edit. repeat split.
  - now apply pullRequest_write_error.
  - now apply writePullRequestChanges_created in H.
  - now apply (pullRequest_edit_error sys w w1 w2).
  - apply writePullRequestChanges_created in H.
    apply execCmd_created in H0. congruence.
  - rewrite (pullRequest_steps sys w w1 w2 "" ""
               (Some ("open " ++ messageFile
                      ++ ": no such file or directory")) H H0).
    + reflexivity.
    + unfold readTitleAndBodyFromFile, bind, os.Open.
      fold messageFile. rewrite H1. reflexivity.
  - apply writePullRequestChanges_created in H.
    apply execCmd_created in H0. congruence.
Qed.

Lemma pullRequest_fails_early_witness :
  pullRequest (faultySystem (Some "permission denied") None None None)
    emptyWorld
  = (Exited 1,
     {| files := files emptyWorld; created := [];
        logged := ["permission denied"] |})
  /\ (fst (pullRequest (faultySystem None (Some "exit status 1") (Some "t")
                          None) emptyWorld) = Exited 1
      /\ logged (snd (pullRequest (faultySystem None (Some "exit status 1")
                                     (Some "t") None) emptyWorld))
         = ["exit status 1"])
  /\ pullRequest (faultySystem None None None None) emptyWorld
     = (Exited 1,
        {| files := fun _ => None; created := [];
           logged := ["open .git/PULLREQ_EDITMSG: no such file or directory"]
        |}).
Proof.
  split; [|split].
  - pose (sys := faultySystem (Some "permission denied") None None None).
    destruct (pullRequest_fails_early sys emptyWorld emptyWorld emptyWorld
                "permission denied") as [H _].
    destruct H as [H _]; [vm_compute; reflexivity|].
    fold sys. rewrite H. reflexivity.
  - pose (sys := faultySystem None (Some "exit status 1") (Some "t") None).
    pose (w1 := snd (writePullRequestChanges sys ".git/PULLREQ_EDITMSG"
                       "owner:master" "owner:topic" emptyWorld)).
    pose (w2 := snd (execCmd sys
                       (buildEditCommand sys ".git/PULLREQ_EDITMSG") w1)).
    destruct (pullRequest_fails_early sys emptyWorld w1 w2 "exit status 1")
      as [_ [H _]].
    destruct H as [H _]; [vm_compute; reflexivity ..|].
    fold sys. rewrite H. split; reflexivity.
  - pose (sys := faultySystem None None None None).
    pose (w1 := snd (writePullRequestChanges sys ".git/PULLREQ_EDITMSG"
                       "owner:master" "owner:topic" emptyWorld)).
    pose (w2 := snd (execCmd sys
                       (buildEditCommand sys ".git/PULLREQ_EDITMSG") w1)).
    destruct (pullRequest_fails_early sys emptyWorld w1 w2 "")
      as [_ [_ H]].
    destruct H as [H _]; [vm_compute; reflexivity ..|].
    fold sys. rewrite H. reflexivity.
Defined.

(** ** The draft read back *)

Lemma dropCR_cases (s : string) :
  bufio.dropCR s = s \/ s = bufio.dropCR s ++ cr.
Proof.
  unfold bufio.dropCR. destruct (rev s) as [|c r] eqn:E; [now left|].
  destruct (Ascii.eqb_spec c "013") as [->|]; [right | now left].
  rewrite <- (rev_involutive s), E. reflexivity.
Qed.

Lemma HasPrefix_hash_append (s x : string) :
  strings.HasPrefix s "#" = true -> strings.HasPrefix (s ++ x) "#" = true.
Proof. destruct s as [|c s]; [discriminate | exact (fun H => H)]. Qed.

Lemma HasPrefix_hash_dropCR (ln buf : string) :
  strings.HasPrefix (ln ++ buf) "#" = true ->
  strings.HasPrefix (ln ++ bufio.dropCR buf) "#" = true.
Proof.
  destruct (dropCR_cases buf) as [->|E]; [exact (fun H => H)|].
  rewrite E at 1. rewrite <- append_assoc.
  destruct (ln ++ bufio.dropCR buf) as [|c s]; [discriminate|].
  exact (fun H => H).
Qed.

(** If the line being read starts with [#], so does the line that [readln]
    returns, whatever the size of the buffer. *)
Lemma lines_fragments_comment (size : nat) (text : string) :
  forall ln buf,
    strings.HasPrefix (ln ++ buf) "#" = true ->
    match lines_from ln (bufio.fragments size buf text) with
    | [] => True
    | line :: _ => strings.HasPrefix line "#" = true
    end.
Proof.
  induction text as [|c text IH]; intros ln buf H; simpl.
  - destruct buf; simpl; [exact I | exact H].
  - destruct (Ascii.eqb c "010"); simpl.
    + now apply HasPrefix_hash_dropCR.
    + destruct (String.length (buf ++ String c "") <? size)%nat.
      * apply IH. rewrite <- append_assoc.
        now apply HasPrefix_hash_append.
      * destruct (Ascii.eqb c "013"); simpl; apply IH.
        -- rewrite append_assoc. rewrite <- append_assoc.
           now apply HasPrefix_hash_append.
        -- rewrite append_nil_r, <- append_assoc.
           now apply HasPrefix_hash_append.
Qed.

(** A text whose first line is empty and whose second line starts with [#]
    has neither title nor body. *)
Lemma readTitleAndBody_blank_comment (rest : string) :
  readTitleAndBody (bufio.NewReader (nl ++ "#" ++ rest)) = ("", "", None).
Proof.
  rewrite readTitleAndBody_lines.
  assert (E : lines (bufio.NewReader (nl ++ "#" ++ rest))
              = "" :: lines_from "" (bufio.fragments bufio.defaultBufSize
                                       "#" rest)) by reflexivity.
  rewrite E.
  pose proof (lines_fragments_comment bufio.defaultBufSize rest "" "#"
                eq_refl) as H.
  destruct (lines_from "" (bufio.fragments bufio.defaultBufSize "#" rest))
    as [|line ls]; [reflexivity|].
  cbn [partsOfLines]. rewrite H. reflexivity.
Qed.

Lemma writePullRequestChanges_file (sys : System)
    (messageFile base head : string) (w w' : World) :
  writePullRequestChanges sys messageFile base head w = (Returned None, w') ->
  exists logs, files w' messageFile = Some (draft base head logs).
Proof.
  destruct (writePullRequestChanges_draft sys messageFile base head w)
    as [b [h [_ [_ ->]]]].
  unfold ioutil.WriteFile. destruct (writeFails sys messageFile w);
    [discriminate|].
  intros H. injection H as <-. eexists. simpl. unfold update.
  now rewrite String.eqb_refl.
Qed.

Lemma readTitleAndBodyFromFile_draft (messageFile base head logs : string)
    (w : World) :
  files w messageFile = Some (draft base head logs) ->
  readTitleAndBodyFromFile messageFile w = (Returned ("", "", None), w).
Proof.
  intros H. unfold readTitleAndBodyFromFile, bind, os.Open, os.Close, ret.
  rewrite H. unfold draft, os.contents.
  change (nl ++ "# Requesting a pull to " ++ ?x)
    with (nl ++ "#" ++ " Requesting a pull to " ++ x).
  now rewrite readTitleAndBody_blank_comment.
Qed.

(** X4: the draft that [writePullRequestChanges] writes holds no message:
    read back as it is, with any base, head and commit log, it gives an
    empty title and an empty body. *)
Theorem writePullRequestChanges_read_back (sys : System)
    (messageFile base head : string) (w w' : World) :
  writePullRequestChanges sys messageFile base head w = (Returned None, w') ->
  readTitleAndBodyFromFile messageFile w' = (Returned ("", "", None), w').
Proof.
  intros H. apply writePullRequestChanges_file in H. destruct H as [logs H].
  now apply (readTitleAndBodyFromFile_draft messageFile base head logs).
Qed.

Lemma writePullRequestChanges_read_back_witness :
  let sys := exampleSystem "vim" ("Fix bug" ++ nl ++ "Add test") None in
  let w' := snd (writePullRequestChanges sys "M" "owner:master" "owner:topic"
                   emptyWorld) in
  readTitleAndBodyFromFile "M" w' = (Returned ("", "", None), w').
Proof.
  intros sys w'.
  apply (writePullRequestChanges_read_back sys "M" "owner:master"
           "owner:topic" emptyWorld w').
  reflexivity.
Defined.

(** X5: if the editor succeeds and leaves the draft as it was written,
    [pullRequest] sends nothing: it logs that the title is empty and exits
    with status 1. *)
Theorem pullRequest_unedited_draft (sys : System) (w w1 w2 : World) :
  let messageFile := joinPath sys (Dir (git sys)) "PULLREQ_EDITMSG" in
  writePullRequestChanges sys messageFile (flagPullRequestBase sys)
    (flagPullRequestHead sys) w = (Returned None, w1) ->
  execCmd sys (buildEditCommand sys messageFile) w1 = (Returned None, w2) ->
  files w2 messageFile = files w1 messageFile ->
  pullRequest sys w
  = log.Fatal "Aborting due to empty pull request title" w2
  /\ created w2 = created w.
Proof.
  intros messageFile H1 H2 Hsame. split.
  - destruct (writePullRequestChanges_file _ _ _ _ _ _ H1) as [logs Hf].
    rewrite <- Hsame in Hf.
    rewrite (pullRequest_steps sys w w1 w2 "" "" None H1 H2
               (readTitleAndBodyFromFile_draft _ _ _ _ _ Hf)).
    reflexivity.
  - apply writePullRequestChanges_created in H1.
    apply execCmd_created in H2. congruence.
Qed.

Lemma pullRequest_unedited_draft_witness :
  let sys := exampleSystem "gvim" "Fix bug" None in
  fst (pullRequest sys emptyWorld) = Exited 1
  /\ logged (snd (pullRequest sys emptyWorld))
     = ["Aborting due to empty pull request title"].
Proof.
  intros sys.
  pose (w1 := snd (writePullRequestChanges sys ".git/PULLREQ_EDITMSG"
                     "owner:master" "owner:topic" emptyWorld)).
  destruct (pullRequest_unedited_draft sys emptyWorld w1 w1) as [H _];
    [vm_compute; reflexivity ..|].
  rewrite H. split; reflexivity.
Defined.

(** ** The title block and the body *)

Lemma beforeComment_no_comment (ls : list string) (l : string) :
  In l (beforeComment ls) -> strings.HasPrefix l "#" = false.
Proof.
  induction ls as [|line ls IH]; cbn [beforeComment]; [intros []|].
  destruct (strings.HasPrefix line "#") eqn:E; [intros []|].
  intros [<-|H]; [exact E | now apply IH].
Qed.

(** On lines without comment the loop gathers the title block, then
    everything else. *)
Lemma partsOfLines_blocks (ls : list string) :
  (forall l, In l ls -> strings.HasPrefix l "#" = false) ->
  forall tp,
    partsOfLines ls tp [] = ((tp ++ titleBlock ls)%list, afterTitleBlock ls).
Proof.
  induction ls as [|line ls IH]; intros H tp.
  - simpl. now rewrite app_nil_r.
  - cbn [partsOfLines titleBlock afterTitleBlock].
    rewrite (H line) by now left.
    change (len (@nil string) =? 0)%Z with true. cbn [andb].
    destruct (regexp.MatchString_S line).
    + rewrite IH by (intros l Hl; apply H; now right).
      now rewrite <- app_assoc.
    + rewrite partsOfLines_body;
        [ now rewrite app_nil_r
        | discriminate
        | intros l Hl; apply H; now right ].
Qed.

Lemma readTitleAndBody_blocks (reader : bufio.Reader) :
  let ls := beforeComment (lines reader) in
  readTitleAndBody reader
  = (strings.TrimSpace (strings.Join (titleBlock ls) " "),
     strings.TrimSpace (strings.Join (afterTitleBlock ls) nl), None).
Proof.
  cbv zeta. rewrite readTitleAndBody_lines, partsOfLines_beforeComment.
  rewrite partsOfLines_blocks by apply beforeComment_no_comment.
  reflexivity.
Qed.

(** X6: what [readTitleAndBody] computes, without the loop: of the lines
    before the first comment line, the title is the first run of lines
    that have a character that is not white space, joined by spaces and
    trimmed, and the body is all the lines from the first line without
    such a character, joined by line feeds and trimmed. *)
Theorem readTitleAndBody_title_block (reader : bufio.Reader) :
  readTitleAndBody reader
  = (strings.TrimSpace
       (strings.Join (titleBlock (beforeComment (lines reader))) " "),
     strings.TrimSpace
       (strings.Join (afterTitleBlock (beforeComment (lines reader))) nl),
     None).
Proof. apply readTitleAndBody_blocks. Qed.

(** X7: a first line without a character that is not white space leaves
    the title empty, whatever follows it: the text below such a line is
    body. *)
Theorem readTitleAndBody_blank_first_line (reader : bufio.Reader)
    (line : string) (rest : list string) :
  lines reader = line :: rest ->
  regexp.MatchString_S line = false ->
  exists body, readTitleAndBody reader = ("", body, None).
Proof.
  intros Hl Hs. rewrite readTitleAndBody_blocks. cbv zeta. rewrite Hl.
  cbn [beforeComment]. destruct (strings.HasPrefix line "#").
  - eexists. reflexivity.
  - cbn [titleBlock afterTitleBlock]. rewrite Hs. eexists. reflexivity.
Qed.

Lemma readTitleAndBody_blank_first_line_witness :
  exists body,
    readTitleAndBody
      (bufio.NewReader (nl ++ "Fix the parser" ++ nl ++ nl ++ "Details"))
    = ("", body, None).
Proof.
  apply (readTitleAndBody_blank_first_line _ ""
           ["Fix the parser"; ""; "Details"]).
  - vm_compute. reflexivity.
  - reflexivity.
Defined.

(** A text made of tabs, line feeds, form feeds, carriage returns and
    spaces is trimmed to nothing. *)
Lemma TrimSpace_blank (s : string) :
  regexp.MatchString_S s = false -> strings.TrimSpace s = "".
Proof.
  intros H. unfold strings.TrimSpace.
  assert (E : strings.TrimLeft s = "").
  { unfold strings.TrimLeft. induction s as [|c s IH]; [reflexivity|].
    simpl in H. apply orb_false_iff in H. destruct H as [Hc Hs].
    assert (Hsp : strings.space1 c = true).
    { unfold regexp.nonSpace in Hc. apply negb_false_iff in Hc.
      unfold strings.space1. revert Hc. generalize (byte c) as n. intros n Hc.
      repeat (apply orb_true_iff in Hc; destruct Hc as [Hc|Hc]);
        apply N.eqb_eq in Hc; subst n; reflexivity. }
    simpl. rewrite Hsp. now apply IH. }
  now rewrite E.
Qed.

Lemma MatchString_S_append (a b : string) :
  regexp.MatchString_S (a ++ b)
  = regexp.MatchString_S a || regexp.MatchString_S b.
Proof.
  induction a as [|c a IH]; simpl; [reflexivity|].
  now rewrite IH, orb_assoc.
Qed.

Lemma MatchString_S_Join (ls : list string) :
  (forall l, In l ls -> regexp.MatchString_S l = false) ->
  regexp.MatchString_S (strings.Join ls nl) = false.
Proof.
  induction ls as [|l ls IH]; intros H; [reflexivity|].
  destruct ls as [|l' ls]; [apply H; now left|].
  change (strings.Join (l :: l' :: ls) nl)
    with (l ++ nl ++ strings.Join (l' :: ls) nl).
  rewrite !MatchString_S_append, (H l) by now left.
  simpl. apply IH. intros l0 H0. apply H. now right.
Qed.

(** X8: if no line before the first comment line has a character that is
    not white space (no line at all, blank lines only, or a comment at
    once), the title and the body are both empty. *)
Theorem readTitleAndBody_blank_lines (reader : bufio.Reader) :
  (forall line, In line (beforeComment (lines reader)) ->
                regexp.MatchString_S line = false) ->
  readTitleAndBody reader = ("", "", None).
Proof.
  intros H. rewrite readTitleAndBody_blocks. cbv zeta.
  assert (Ht : titleBlock (beforeComment (lines reader)) = []).
  { destruct (beforeComment (lines reader)) as [|l ls]; [reflexivity|].
    cbn [titleBlock]. now rewrite (H l) by now left. }
  assert (Hb : afterTitleBlock (beforeComment (lines reader))
               = beforeComment (lines reader)).
  { destruct (beforeComment (lines reader)) as [|l ls]; [reflexivity|].
    cbn [afterTitleBlock]. now rewrite (H l) by now left. }
  rewrite Ht, Hb, (TrimSpace_blank _ (MatchString_S_Join _ H)).
  reflexivity.
Qed.

Lemma readTitleAndBody_blank_lines_witness :
  readTitleAndBody
    (bufio.NewReader ("  " ++ nl ++ nl ++ String "009" "" ++ cr ++ nl
                      ++ "# Fix bug" ++ nl ++ "text"))
  = ("", "", None).
Proof.
  apply readTitleAndBody_blank_lines.
  intros line H. vm_compute in H.
  repeat (destruct H as [<-|H]; [reflexivity|]). destruct H.
Defined.

(** X9: the title read from a file is one line, and neither the title nor
    the body starts or ends with white space: trimming them again changes
    nothing. *)
Theorem readTitleAndBody_trimmed (text title body : string) :
  readTitleAndBody (bufio.NewReader text) = (title, body, None) ->
  contains "010" title = false
  /\ strings.TrimSpace title = title
  /\ strings.TrimSpace body = body.
Proof.
  intros H. rewrite readTitleAndBody_lines in H.
  destruct (partsOfLines (lines (bufio.NewReader text)) [] [])
    as [tp bp] eqn:E.
  injection H as <- <-. split; [|split; apply TrimSpace_idempotent].
  apply TrimSpace_contains, contains_Join; [reflexivity|].
  intros l Hl. destruct (partsOfLines_title _ _ _ _ _ E l Hl) as [[]|H].
  now apply lines_NewReader_no_LF in H.
Qed.

Lemma readTitleAndBody_trimmed_witness :
  contains "010" "Line one Line two" = false
  /\ strings.TrimSpace "Line one Line two" = "Line one Line two"
  /\ strings.TrimSpace "Body line" = "Body line".
Proof.
  apply (readTitleAndBody_trimmed
           (" Line one" ++ nl ++ "Line two  " ++ nl ++ nl ++ "Body line"
            ++ nl)).
  vm_compute. reflexivity.
Defined.

(** ** Lines that do not end *)

Lemma lines_from_prefix_end (r : bufio.Reader) (fragment : string) :
  forall ln, lines_from ln (r ++ [(fragment, true)])%list = lines_from ln r.
Proof.
  induction r as [|[line isPrefix] r IH]; intros ln; simpl; [reflexivity|].
  destruct isPrefix; now rewrite IH.
Qed.

(** X10: bytes that [readln] has gathered when [ReadLine] runs into the end
    of the input are returned together with [io.EOF], and the loop of
    [readTitleAndBody] leaves them out: a last fragment with [isPrefix]
    set changes neither the title nor the body. *)
Theorem readTitleAndBody_drops_unfinished_line (reader : bufio.Reader)
    (fragment : string) :
  readln [(fragment, true)] = (fragment, io.EOF, [])
  /\ readTitleAndBody (reader ++ [(fragment, true)])%list
     = readTitleAndBody reader.
Proof.
  split; [reflexivity|].
  rewrite !readTitleAndBody_lines. unfold lines.
  now rewrite lines_from_prefix_end.
Qed.

(** After a line feed the reader starts afresh. *)
Lemma fragments_after_LF (size : nat) (head rest : string) :
  strings.HasSuffix head nl = true ->
  forall buf,
    bufio.fragments size buf (head ++ rest)
    = (bufio.fragments size buf head ++ bufio.fragments size "" rest)%list.
Proof.
  induction head as [|c head IH]; intros H buf; [discriminate|].
  unfold nl in H. rewrite HasSuffix_char_cons in H.
  destruct head as [|d head].
  - apply Ascii.eqb_eq in H. subst c. reflexivity.
  - specialize (IH H). cbn [append bufio.fragments] in *.
    destruct (Ascii.eqb c "010"); [now rewrite IH|].
    destruct (String.length (buf ++ String c "") <? size)%nat;
      [apply IH|].
    destruct (Ascii.eqb c "013"); now rewrite IH.
Qed.

(** Bytes without line feed that fill the buffer come as one fragment with
    [isPrefix] set. *)
Lemma fragments_full (size : nat) (text : string) :
  forall buf,
    text <> "" ->
    String.length buf + String.length text = size ->
    contains "010" text = false ->
    strings.HasSuffix text cr = false ->
    bufio.fragments size buf text = [(buf ++ text, true)].
Proof.
  induction text as [|c text IH]; intros buf Hne Hlen Hnl Hcr;
    [congruence|].
  simpl in Hnl. apply orb_false_iff in Hnl. destruct Hnl as [Hc Hnl].
  unfold cr in Hcr. rewrite HasSuffix_char_cons in Hcr.
  assert (L : String.length (buf ++ String c "") = S (String.length buf)).
  { rewrite length_append. simpl. lia. }
  cbn [bufio.fragments]. rewrite Hc. cbv zeta. simpl in Hlen.
  destruct text as [|d text].
  - simpl in Hlen.
    destruct (Nat.ltb_spec (String.length (buf ++ String c "")) size);
      [lia|].
    rewrite Hcr. reflexivity.
  - destruct (Nat.ltb_spec (String.length (buf ++ String c "")) size);
      [|simpl in Hlen; lia].
    rewrite IH; [now rewrite append_assoc | discriminate | lia
                | exact Hnl | exact Hcr].
Qed.

(** X11: a last line of the file that has no line feed after it and is
    exactly as long as the buffer of the reader (4096 bytes) is not read:
    the title and the body are those of the file without that line. *)
Theorem readTitleAndBody_drops_full_buffer (head last : string) :
  head = "" \/ strings.HasSuffix head nl = true ->
  String.length last = bufio.defaultBufSize ->
  contains "010" last = false ->
  strings.HasSuffix last cr = false ->
  readTitleAndBody (bufio.NewReader (head ++ last))
  = readTitleAndBody (bufio.NewReader head).
Proof.
  intros Hhead Hlen Hnl Hcr.
  assert (Hne : last <> "") by (intros ->; discriminate Hlen).
  assert (E : bufio.NewReader (head ++ last)
              = (bufio.NewReader head ++ [(last, true)])%list).
  { unfold bufio.NewReader. destruct Hhead as [->|Hhead].
    - now apply (fragments_full bufio.defaultBufSize last "").
    - rewrite fragments_after_LF by exact Hhead.
      now rewrite (fragments_full bufio.defaultBufSize last ""). }
  rewrite E, !readTitleAndBody_lines. unfold lines.
  now rewrite lines_from_prefix_end.
Qed.

Lemma readTitleAndBody_drops_full_buffer_witness :
  readTitleAndBody
    (bufio.NewReader (("Title" ++ nl ++ nl)
                      ++ replicate bufio.defaultBufSize "x"))
  = readTitleAndBody (bufio.NewReader ("Title" ++ nl ++ nl)).
Proof.
  apply readTitleAndBody_drops_full_buffer.
  - right. reflexivity.
  - vm_compute. reflexivity.
  - vm_compute. reflexivity.
  - vm_compute. reflexivity.
Defined.

(** ** Line ends *)

Lemma dropCR_CR (s : string) : bufio.dropCR (s ++ cr) = s.
Proof.
  unfold bufio.dropCR. rewrite rev_append. simpl. apply rev_involutive.
Qed.

Lemma length_Join_nl_crlf (ls : list string) :
  String.length (strings.Join ls nl)
  <= String.length (strings.Join ls (cr ++ nl)).
Proof.
  induction ls as [|l ls IH]; [reflexivity|].
  destruct ls as [|l' ls]; [reflexivity|].
  change (strings.Join (l :: l' :: ls) nl)
    with (l ++ nl ++ strings.Join (l' :: ls) nl).
  change (strings.Join (l :: l' :: ls) (cr ++ nl))
    with (l ++ (cr ++ nl) ++ strings.Join (l' :: ls) (cr ++ nl)).
  rewrite !length_append.
  change (String.length nl) with 1. change (String.length cr) with 1.
  lia.
Qed.

Lemma wholeLines_Join_crlf (ls : list string) :
  (forall l, In l ls ->
             contains "010" l = false /\ strings.HasSuffix l cr = false) ->
  wholeLines "" (strings.Join ls (cr ++ nl))
  = wholeLines "" (strings.Join ls nl).
Proof.
  induction ls as [|l ls IH]; intros H; [reflexivity|].
  destruct ls as [|l' ls]; [reflexivity|].
  change (strings.Join (l :: l' :: ls) nl)
    with (l ++ nl ++ strings.Join (l' :: ls) nl).
  change (strings.Join (l :: l' :: ls) (cr ++ nl))
    with (l ++ (cr ++ nl) ++ strings.Join (l' :: ls) (cr ++ nl)).
  destruct (H l (or_introl eq_refl)) as [Hnl Hcr].
  rewrite (append_assoc cr nl), <- (append_assoc l cr).
  rewrite !wholeLines_line;
    [ | exact Hnl | rewrite contains_append, Hnl; reflexivity ].
  cbn [append]. rewrite dropCR_CR, (dropCR_no_CR _ Hcr).
  f_equal. apply IH. intros l0 H0. apply H. now right.
Qed.

(** X12: a draft whose lines end in carriage return and line feed is read
    like the draft whose lines end in a line feed, when it is shorter than
    the buffer of the reader and no line ends in a carriage return of its
    own. *)
Theorem readTitleAndBody_crlf (ls : list string) :
  (forall l, In l ls ->
             contains "010" l = false /\ strings.HasSuffix l cr = false) ->
  String.length (strings.Join ls (cr ++ nl)) < bufio.defaultBufSize ->
  readTitleAndBody (bufio.NewReader (strings.Join ls (cr ++ nl)))
  = readTitleAndBody (bufio.NewReader (strings.Join ls nl)).
Proof.
  intros H Hlen. rewrite !readTitleAndBody_lines.
  pose proof (length_Join_nl_crlf ls) as Hle.
  rewrite !lines_NewReader_short by (exact Hlen || lia).
  now rewrite wholeLines_Join_crlf.
Qed.

Lemma readTitleAndBody_crlf_witness :
  readTitleAndBody
    (bufio.NewReader ("Fix bug" ++ cr ++ nl ++ cr ++ nl ++ "Details"
                      ++ cr ++ nl ++ "# Changes:"))
  = ("Fix bug", "Details", None).
Proof.
  change (readTitleAndBody
            (bufio.NewReader
               (strings.Join ["Fix bug"; ""; "Details"; "# Changes:"]
                  (cr ++ nl)))
          = ("Fix bug", "Details", None)).
  rewrite (readTitleAndBody_crlf ["Fix bug"; ""; "Details"; "# Changes:"]).
  - vm_compute. reflexivity.
  - intros l H. vm_compute in H.
    repeat (destruct H as [<-|H]; [split; reflexivity|]). destruct H.
  - apply Nat.ltb_lt. vm_compute. reflexivity.
Defined.

(** ** The branch name and the log section, again *)

(** The last segment is the end of the string; it is the whole string when
    there is one segment only. *)
Lemma Split_last_suffix (s : string) (sep : ascii) :
  exists p,
    s = p ++ List.last (strings.Split s sep) ""
    /\ (List.length (strings.Split s sep) = 1 -> p = "").
Proof.
  induction s as [|c s [p [IH1 IH2]]]; [exists ""; now split|].
  pose proof (Split_nonempty s sep) as Hne. cbn [strings.Split].
  destruct (strings.Split s sep) as [|h t]; [contradiction|].
  destruct (Ascii.eqb c sep).
  - exists (String c p). split; [|discriminate].
    change (List.last ("" :: h :: t) "") with (List.last (h :: t) "").
    cbn [append]. now rewrite <- IH1.
  - destruct t as [|h' t].
    + exists "". rewrite (IH2 eq_refl) in IH1. cbn in IH1.
      subst s. now split.
    + exists (String c p). split; [|discriminate].
      change (List.last (String c h :: h' :: t) "")
        with (List.last (h :: h' :: t) "").
      cbn [append]. now rewrite <- IH1.
Qed.

Lemma last_In {A : Type} (l : list A) (d : A) :
  l <> [] -> In (List.last l d) l.
Proof.
  induction l as [|x l IH]; [congruence|]. intros _.
  destruct l as [|y l]; [now left|]. right. apply IH. discriminate.
Qed.

(** X13: the local branch is an end of the reference that holds no [":"],
    and resolving it again gives the same name. *)
Theorem getLocalBranch_idempotent (branchName : string) :
  exists qualifier branch,
    getLocalBranch branchName = Some branch
    /\ branchName = qualifier ++ branch
    /\ contains ":" branch = false
    /\ getLocalBranch branch = Some branch.
Proof.
  destruct (Split_last_suffix branchName ":") as [p [Hp _]].
  exists p, (List.last (strings.Split branchName ":") "").
  assert (Hc : contains ":" (List.last (strings.Split branchName ":") "")
               = false).
  { apply (Split_segment_no_sep branchName), last_In, Split_nonempty. }
  repeat split; [apply getLocalBranch_last | exact Hp | exact Hc |].
  rewrite getLocalBranch_last. now rewrite (Split_none _ _ Hc).
Qed.

(** A line of spaces ends in a space. *)
Lemma spacesToEol_trailing (l : string) :
  regexp.spacesToEol l = true -> contains "010" l = false -> l <> "" ->
  strings.HasSuffix l " " = true.
Proof.
  induction l as [|c l IH]; intros Hsp Hnl Hne; [congruence|].
  simpl in Hsp, Hnl. apply orb_false_iff in Hnl. destruct Hnl as [Hc Hnl].
  rewrite Hc in Hsp. simpl in Hsp. apply andb_true_iff in Hsp.
  destruct Hsp as [Hs Hsp]. rewrite HasSuffix_char_cons.
  destruct l as [|d l]; [exact Hs|]. apply IH; [exact Hsp | exact Hnl|].
  discriminate.
Qed.

(** A line that does not end in a space is left as it is. *)
Lemma replaceTrailing_fixed (l : string) :
  contains "010" l = false -> strings.HasSuffix l " " = false ->
  regexp.replaceTrailing "" false l = l.
Proof.
  induction l as [|c l IH]; intros Hnl Hend; [reflexivity|].
  pose proof Hnl as Hnl'. simpl in Hnl'. apply orb_false_iff in Hnl'.
  destruct Hnl' as [Hc Hl]. simpl.
  destruct (Ascii.eqb c " " && regexp.spacesToEol l) eqn:E.
  - assert (Hsp : regexp.spacesToEol (String c l) = true).
    { simpl. rewrite E. apply orb_true_r. }
    rewrite (spacesToEol_trailing _ Hsp Hnl) in Hend by discriminate.
    discriminate.
  - f_equal. apply IH; [exact Hl|].
    rewrite HasSuffix_char_cons in Hend.
    destruct l; [reflexivity | exact Hend].
Qed.

(** X14: the log section keeps the commit log line by line: it has as many
    lines as the trimmed log, and a line of the log that is not empty and
    does not end in a space stands at the same place in the log section,
    after [# ]. *)
Theorem logSection_keeps_lines (commitLogs : string) :
  List.length (strings.Split (logSection commitLogs) "010")
  = List.length (strings.Split (strings.TrimSpace commitLogs) "010")
  /\ forall (i : nat) (l : string),
       nth_error (strings.Split (strings.TrimSpace commitLogs) "010") i
       = Some l ->
       l <> "" -> strings.HasSuffix l " " = false ->
       nth_error (strings.Split (logSection commitLogs) "010") i
       = Some ("# " ++ l).
Proof.
  rewrite Split_logSection. split; [apply length_map|].
  intros i l Hi Hne Hend. rewrite nth_error_map, Hi. simpl option_map.
  f_equal. unfold regexp.ReplaceAllString_eol.
  apply nth_error_In, Split_segment_no_sep in Hi.
  change ("# " ++ l) with (String "#" (String " " l)).
  apply replaceTrailing_fixed.
  - simpl. exact Hi.
  - rewrite !HasSuffix_char_cons. destruct l; [congruence | exact Hend].
Qed.

Lemma logSection_keeps_lines_witness :
  nth_error
    (strings.Split (logSection ("Fix bug" ++ nl ++ nl ++ "Add test" ++ nl))
       "010") 2
  = Some ("# " ++ "Add test").
Proof.
  apply (logSection_keeps_lines ("Fix bug" ++ nl ++ nl ++ "Add test" ++ nl)).
  - reflexivity.
  - discriminate.
  - reflexivity.
Defined.

(** ** Long lines *)

(** [readln] on the fragments of a line that ends with a line feed: [ln]
    and [buf] are the bytes of the line read before, and [ln] does not end
    in a carriage return when [buf] is empty, since a carriage return that
    fills the buffer is put back. *)
Lemma readln_from_line (size : nat) (a rest : string) :
  contains "010" a = false ->
  forall ln buf,
    (buf = "" -> strings.HasSuffix ln cr = false) ->
    readln_from ln (bufio.fragments size buf (a ++ nl ++ rest))
    = (bufio.dropCR (ln ++ buf ++ a), None, bufio.fragments size "" rest).
Proof.
  induction a as [|c a IH]; intros Hnl ln buf Hinv.
  - change (bufio.fragments size buf ("" ++ nl ++ rest))
      with ((bufio.dropCR buf, false) :: bufio.fragments size "" rest).
    cbn [readln_from]. rewrite append_nil_r.
    replace (bufio.dropCR (ln ++ buf)) with (ln ++ bufio.dropCR buf);
      [reflexivity|].
    destruct buf as [|b buf].
    + change (bufio.dropCR "") with "". rewrite !append_nil_r.
      symmetry. now apply dropCR_no_CR, Hinv.
    + symmetry. now apply dropCR_append.
  - simpl in Hnl. apply orb_false_iff in Hnl. destruct Hnl as [Hc Hnl].
    cbn [append bufio.fragments]. rewrite Hc. cbv zeta.
    destruct (String.length (buf ++ String c "") <? size)%nat.
    + rewrite IH.
      * now rewrite (append_assoc buf).
      * exact Hnl.
      * intros E. destruct buf; discriminate.
    + destruct (Ascii.eqb c "013") eqn:Ecr; cbn [readln_from]; rewrite IH.
      * now rewrite append_assoc.
      * exact Hnl.
      * discriminate.
      * now rewrite !append_assoc.
      * exact Hnl.
      * intros _. unfold cr.
        now rewrite <- append_assoc, HasSuffix_append_char.
Qed.

(** X15: [readln] reads a line that ends with a line feed whole, however
    long it is: the fragments that [ReadLine] returns for a line longer
    than the buffer are put together, the line feed and the carriage
    return before it are left out, and the reader is left at the next
    line. *)
Theorem readln_whole_line (line rest : string) :
  contains "010" line = false ->
  readln (bufio.NewReader (line ++ nl ++ rest))
  = (bufio.dropCR line, None, bufio.NewReader rest).
Proof.
  intros Hnl. unfold readln, bufio.NewReader.
  now rewrite readln_from_line.
Qed.

Lemma readln_whole_line_witness :
  readln (bufio.NewReader (replicate 5000 "x" ++ nl ++ "next"))
  = (bufio.dropCR (replicate 5000 "x"), None, bufio.NewReader "next").
Proof.
  apply readln_whole_line. vm_compute. reflexivity.
Defined.
